(** * SongSnaps order service (backend/server.py)

    A shallow embedding of the order handlers of [backend/server.py] and of
    the document collection they talk to.

    - A MongoDB document is a Python [dict]: a finite map from field names
      to values ([gmap string value]).
    - The collection [orders_collection] is the list of its documents in
      natural (insertion) order; every handler takes the collection and
      returns the collection it leaves behind.
    - What a handler reads from its environment is an argument:
      [uuid.uuid4()] is the 128-bit integer of the UUID, [datetime.now()] a
      point in time, and the [ObjectId] the driver mints for a new document.
      The store keeps the milliseconds of a date. Where a handler only
      stores its [datetime.now()], the argument is that time in
      milliseconds; where it also answers with it ([generate_order]), the
      argument is an [instant], which has the microseconds as well.
    - A handler either returns its payload or raises [HTTPException].
      Failures of the driver itself (network, server down), which the
      handlers turn into HTTP 500, are outside the model: every call on the
      collection is answered. *)

From Stdlib Require Import ZArith NArith String Ascii HexadecimalString.
From stdpp Require Import gmap strings list fin_maps sorting.

Local Open Scope Z_scope.

(** ** Values and documents *)

(** [datetime.now()]: a point in time, at the resolution of the store. *)
Definition datetime : Type := Z.

(** [datetime.now()] as the handler holds it in memory: the time in
    milliseconds, which is what the store keeps of it, and the
    microseconds within that millisecond, which only the value in memory
    has. *)
Record instant : Type := Instant { millis : datetime; micros : Z }.

(** The identifier the driver assigns to a document. *)
Definition ObjectId : Type := N.

(** The values the order documents hold. *)
Inductive value : Type :=
  | VStr (s : string)
  | VBool (b : bool)
  | VDate (t : datetime)
  | VList (l : list string)
  | VOid (o : ObjectId).

Global Instance value_eq_dec : EqDecision value.
Proof. solve_decision. Defined.

Abbreviation document := (gmap string value).

(** Python truthiness ([not x]) of a value. *)
Definition truthy (v : value) : bool :=
  match v with
  | VStr s => negb (String.eqb s "")
  | VBool b => b
  | VDate _ => true
  | VList l => match l with [] => false | _ => true end
  | VOid _ => true
  end.

(** ** The plan catalog *)

Record plan_info : Type := {
  name : string;
  price : string;
  description : string;
  delivery : string;
  features : list string
}.

Definition PLAN_DETAILS : gmap string plan_info :=
  <["snap" := {|
      name := "Snap";
      price := "$3.99";
      description := "1 full-length custom song with cover art";
      delivery := "2 hours";
      features := ["1 custom song"; "Simple cover art"; "2-hour delivery";
                   "No edits"] |}]>
  (<["snappack" := {|
      name := "Snap Pack";
      price := "$9.99";
      description := "3 songs over 7 days";
      delivery := "48 hours each";
      features := ["3 custom songs"; "Different moods/vibes";
                   "Cover art for each"; "48-hour delivery"] |}]>
  (<["creator" := {|
      name := "Creator Pack";
      price := "$24.99/mo";
      description := "Up to 10 songs per month with extras";
      delivery := "Priority";
      features := ["Up to 10 songs/month"; "AI stems"; "Instrumentals";
                   "TikTok clips"; "Priority delivery"] |}]> ∅)).

(** ** Strings: [uuid4().hex[:8].upper()] *)

Module Str.

Fixpoint zeros (n : nat) : string :=
  match n with
  | O => ""
  | S n => String "0" (zeros n)
  end.

(** ['%032x' % n]: lower-case hexadecimal digits, zero-padded on the left
    to a width of 32. *)
Definition format_032x (n : N) : string :=
  let digits := NilEmpty.string_of_uint (N.to_hex_uint n) in
  zeros (32 - String.length digits) +:+ digits.

(** [c.upper()] on one character: ASCII a-z go to A-Z. *)
Definition upper_ascii (c : ascii) : ascii :=
  let n := N_of_ascii c in
  if ((97 <=? n) && (n <=? 122))%N then ascii_of_N (n - 32) else c.

Fixpoint upper (s : string) : string :=
  match s with
  | EmptyString => EmptyString
  | String c s => String (upper_ascii c) (upper s)
  end.

(** [s[:n]] *)
Definition prefix_of (n : nat) (s : string) : string :=
  String.substring 0 n s.

(** Every character of [s] satisfies [p]. *)
Fixpoint all (p : ascii → bool) (s : string) : bool :=
  match s with
  | EmptyString => true
  | String c s => p c && all p s
  end.

(** One character of the class [0-9A-F]. *)
Definition is_upper_hex (c : ascii) : bool :=
  let n := N_of_ascii c in
  (((48 <=? n) && (n <=? 57)) || ((65 <=? n) && (n <=? 70)))%N.

(** One character of the class [0-9a-f]. *)
Definition is_lower_hex (c : ascii) : bool :=
  let n := N_of_ascii c in
  (((48 <=? n) && (n <=? 57)) || ((97 <=? n) && (n <=? 102)))%N.

(** The pattern [SS-[0-9A-F]{8}], matched against the whole string. *)
Definition matches_order_id (s : string) : bool :=
  match s with
  | String "S" (String "S" (String "-" rest)) =>
      (String.length rest =? 8)%nat && all is_upper_hex rest
  | _ => false
  end.

End Str.

(** [uuid.UUID.hex] of the UUID whose integer is [n]. *)
Definition uuid_hex (n : N) : string := Str.format_032x n.

(** ** The collection (pymongo's [Collection], in memory) *)

Module Collection.

Abbreviation t := (list document).

(** A filter document [{k1: v1, ...}] selects the documents that hold
    every [ki] with the value [vi]. The handlers filter on [orderId],
    [plan] and [fulfilled], which hold a scalar in every document they
    write; the store's matching of a scalar against the members of an
    array-valued field is not modelled. *)
Definition matches (query d : document) : Prop :=
  map_Forall (λ k v, d !! k = Some v) query.

Global Instance matches_dec query d : Decision (matches query d).
Proof. unfold matches. apply _. Defined.

(** [insert_one(doc)]: a document without [_id] gets the fresh one; the
    result carries [inserted_id]. *)
Definition insert_one (oid : ObjectId) (doc : document) (c : t) : value * t :=
  match doc !! "_id" with
  | Some v => (v, c ++ [doc])
  | None => (VOid oid, c ++ [<["_id" := VOid oid]> doc])
  end.

(** [find_one(query)]: the first matching document, or [None]. *)
Definition find_one (query : document) (c : t) : option document :=
  snd <$> list_find (matches query) c.

(** [update_one(query, {"$set": fields})]: the first matching document
    gets [fields] written over it; the result carries [matched_count]. *)
Definition update_one (query fields : document) (c : t) : Z * t :=
  match list_find (matches query) c with
  | Some (i, d) => (1, <[i := fields ∪ d]> c)
  | None => (0, c)
  end.

(** [count_documents(query)] *)
Definition count_documents (query : document) (c : t) : Z :=
  Z.of_nat (length (filter (matches query) c)).

(** [find(query)] *)
Definition find (query : document) (c : t) : t :=
  filter (matches query) c.

(** The sort key of a document on a date field. A field that is missing or
    holds another kind of value sorts below every date in the store's order
    of types; the model puts all of these in the one class [None], below
    the dates. *)
Definition date_key (field : string) (d : document) : option datetime :=
  match d !! field with
  | Some (VDate t) => Some t
  | _ => None
  end.

Definition key_le (a b : option datetime) : Prop :=
  match a, b with
  | None, _ => True
  | Some _, None => False
  | Some x, Some y => x ≤ y
  end.

Global Instance key_le_dec a b : Decision (key_le a b).
Proof. destruct a, b; simpl; apply _. Defined.

(** [d1] may come before [d2] in a descending sort on [field]. *)
Definition desc (field : string) (d1 d2 : document) : Prop :=
  key_le (date_key field d2) (date_key field d1).

Global Instance desc_dec field d1 d2 : Decision (desc field d1 d2).
Proof. unfold desc. apply _. Defined.

(** [cursor.sort(field, -1)]. The store promises no order among documents
    with equal keys; the model sorts by merging, and nothing proved below
    depends on how ties fall. *)
Definition sort_desc (field : string) (c : t) : t :=
  merge_sort (desc field) c.

(** [cursor.limit(n)]: a limit of 0 is no limit, a negative limit counts
    as its absolute value. *)
Definition limit (n : Z) (c : t) : t :=
  if n =? 0 then c else take (Z.abs_nat n) c.

End Collection.

(** ** The handlers *)

Inductive response (A : Type) : Type :=
  | Ok (a : A)
  | HTTPException (status_code : Z) (detail : string).
Arguments Ok {A} a.
Arguments HTTPException {A} status_code detail.

Record OrderRequest : Type := { plan : string }.

Record OrderResponse : Type := {
  resp_orderId : string;
  resp_plan : string;
  resp_price : string;
  resp_timestamp : instant;
  resp_whatsappNumber : string
}.

(** [f"SS-{uuid.uuid4().hex[:8].upper()}"] *)
Definition make_order_id (uuid4 : N) : string :=
  "SS-" +:+ Str.upper (Str.prefix_of 8 (uuid_hex uuid4)).

(** The [order_doc] literal of [generate_order], built at the instant
    [now], as the store encodes it: of [now] the document keeps the
    milliseconds. *)
Definition order_doc (order_id plan_code : string) (plan_info : plan_info)
    (now : instant) : document :=
  <["orderId" := VStr order_id]>
  (<["plan" := VStr plan_code]>
  (<["planName" := VStr (name plan_info)]>
  (<["price" := VStr (price plan_info)]>
  (<["description" := VStr (description plan_info)]>
  (<["delivery" := VStr (delivery plan_info)]>
  (<["features" := VList (features plan_info)]>
  (<["timestamp" := VDate (millis now)]>
  (<["status" := VStr "payment_confirmed"]>
  (<["whatsappNumber" := VStr "+1234567890"]>
  (<["fulfilled" := VBool false]> ∅)))))))))).

(** POST /api/generate-order, for the catalog the process was started with
    ([PLAN_DETAILS] in this source). The response carries
    [order_doc["timestamp"]] as it is in memory, microseconds included;
    the stored document has its milliseconds. *)
Definition generate_order_with (catalog : gmap string plan_info)
    (uuid4 : N) (now : instant) (oid : ObjectId)
    (order_request : OrderRequest) (c : Collection.t)
    : response OrderResponse * Collection.t :=
  match catalog !! plan order_request with
  | None => (HTTPException 400 "Invalid plan type", c)
  | Some plan_info =>
      let order_id := make_order_id uuid4 in
      let doc := order_doc order_id (plan order_request) plan_info now in
      let '(inserted_id, c') := Collection.insert_one oid doc c in
      if negb (truthy inserted_id)
      then (HTTPException 500 "Failed to create order", c')
      else
        (Ok {| resp_orderId := order_id;
               resp_plan := plan order_request;
               resp_price := price plan_info;
               resp_timestamp := now;
               resp_whatsappNumber := "+1234567890" |}, c')
  end.

Definition generate_order := generate_order_with PLAN_DETAILS.

(** GET /api/order/{order_id} *)
Definition get_order (order_id : string) (c : Collection.t) : response document :=
  match Collection.find_one {["orderId" := VStr order_id]} c with
  | None => HTTPException 404 "Order not found"
  | Some order =>
      if decide (order = ∅) then HTTPException 404 "Order not found"
      else Ok (delete "_id" order)
  end.

Record FulfillResponse : Type := {
  message : string;
  fulfilled_orderId : string
}.

(** The [$set] document of [fulfill_order]. *)
Definition fulfilled_fields (now : datetime) : document :=
  <["fulfilled" := VBool true]> (<["fulfilledAt" := VDate now]> ∅).

(** PUT /api/order/{order_id}/fulfill *)
Definition fulfill_order (now : datetime) (order_id : string) (c : Collection.t)
    : response FulfillResponse * Collection.t :=
  let '(matched_count, c') :=
    Collection.update_one
      {["orderId" := VStr order_id]} (fulfilled_fields now) c in
  if matched_count =? 0
  then (HTTPException 404 "Order not found", c')
  else (Ok {| message := "Order fulfilled successfully";
              fulfilled_orderId := order_id |}, c').

Record OrdersResponse : Type := {
  orders : list document;
  count : Z
}.

(** The filter document [get_orders] builds from its optional parameters. *)
Definition orders_query (fulfilled : option bool) (plan : option string) : document :=
  let query : document := ∅ in
  let query := match fulfilled with
               | Some b => <["fulfilled" := VBool b]> query
               | None => query
               end in
  let query := match plan with
               | Some p => <["plan" := VStr p]> query
               | None => query
               end in
  query.

(** GET /api/orders; a parameter the request leaves out is [None], and
    [limit] then takes its default of 50. *)
Definition get_orders (limit : option Z) (fulfilled : option bool)
    (plan : option string) (c : Collection.t) : response OrdersResponse :=
  let limit := default 50 limit in
  let query := orders_query fulfilled plan in
  let orders :=
    Collection.limit limit
      (Collection.sort_desc "timestamp" (Collection.find query c)) in
  let orders := delete "_id" <$> orders in
  Ok {| orders := orders; count := Z.of_nat (length orders) |}.

Record PlanBreakdown : Type := {
  snap : Z;
  snappack : Z;
  creator : Z
}.

Record Stats : Type := {
  totalOrders : Z;
  fulfilledOrders : Z;
  pendingOrders : Z;
  planBreakdown : PlanBreakdown
}.

(** GET /api/stats *)
Definition get_stats (c : Collection.t) : response Stats :=
  let total_orders := Collection.count_documents ∅ c in
  let fulfilled_orders :=
    Collection.count_documents {["fulfilled" := VBool true]} c in
  let pending_orders := total_orders - fulfilled_orders in
  let snap_orders := Collection.count_documents {["plan" := VStr "snap"]} c in
  let snappack_orders :=
    Collection.count_documents {["plan" := VStr "snappack"]} c in
  let creator_orders :=
    Collection.count_documents {["plan" := VStr "creator"]} c in
  Ok {| totalOrders := total_orders;
        fulfilledOrders := fulfilled_orders;
        pendingOrders := pending_orders;
        planBreakdown := {| snap := snap_orders;
                            snappack := snappack_orders;
                            creator := creator_orders |} |}.

(** GET /api/plans *)
Definition get_plans : gmap string plan_info := PLAN_DETAILS.

(** ** Requests *)

(** One request to the service, with what its handler reads from the
    environment. *)
Inductive request : Type :=
  | Root
  | HealthCheck
  | GenerateOrder (uuid4 : N) (now : instant) (oid : ObjectId)
      (order_request : OrderRequest)
  | GetOrder (order_id : string)
  | FulfillOrder (now : datetime) (order_id : string)
  | GetOrders (limit : option Z) (fulfilled : option bool) (plan : option string)
  | GetStats
  | GetPlans.

(** The collection a request leaves behind. Only [generate_order] and
    [fulfill_order] call a writing method of the collection; the other
    handlers read ([find_one], [find], [count_documents]) or do not touch
    it. *)
Definition handle_with (catalog : gmap string plan_info) (r : request)
    (c : Collection.t) : Collection.t :=
  match r with
  | GenerateOrder uuid4 now oid order_request =>
      snd (generate_order_with catalog uuid4 now oid order_request c)
  | FulfillOrder now order_id => snd (fulfill_order now order_id c)
  | Root | HealthCheck | GetOrder _ | GetOrders _ _ _ | GetStats | GetPlans => c
  end.

(** A run of requests, served one after the other. *)
Definition run_with (catalog : gmap string plan_info) (rs : list request)
    (c : Collection.t) : Collection.t :=
  foldl (λ c r, handle_with catalog r c) c rs.

(** ** Vocabulary of the specification *)

(** The document carries the order identifier [order_id]. *)
Definition has_order_id (order_id : string) (d : document) : Prop :=
  d !! "orderId" = Some (VStr order_id).

Global Instance has_order_id_dec order_id d : Decision (has_order_id order_id d).
Proof. unfold has_order_id. apply _. Defined.

(** [d'] is [d] up to the two fields that fulfilment writes. *)
Definition same_but_fulfilment (d d' : document) : Prop :=
  ∀ k, k ≠ "fulfilled" → k ≠ "fulfilledAt" → d' !! k = d !! k.

(** [c'] holds every record of [c], at its place and changed at most in the
    fulfilment fields, followed by the records that came later. *)
Definition grows_from (c c' : Collection.t) : Prop :=
  ∃ c1 c2, c' = c1 ++ c2 ∧ Forall2 same_but_fulfilment c c1.

(** The filters of ListOrders as the specification words them: a filter
    that is supplied must hold of the order, one that is absent asks
    nothing. *)
Definition satisfies_filters (fulfilled : option bool) (plan : option string)
    (d : document) : Prop :=
  match fulfilled with
  | Some b => d !! "fulfilled" = Some (VBool b)
  | None => True
  end ∧
  match plan with
  | Some p => d !! "plan" = Some (VStr p)
  | None => True
  end.

Global Instance satisfies_filters_dec fulfilled plan d :
  Decision (satisfies_filters fulfilled plan d).
Proof. unfold satisfies_filters. destruct fulfilled, plan; apply _. Defined.

(** The order uses the plan code [p]. *)
Definition uses_plan (p : string) (d : document) : Prop :=
  d !! "plan" = Some (VStr p).

Global Instance uses_plan_dec p d : Decision (uses_plan p d).
Proof. unfold uses_plan. apply _. Defined.

(** The order uses one of the three plan codes of the catalog. *)
Definition uses_known_plan (d : document) : Prop :=
  uses_plan "snap" d ∨ uses_plan "snappack" d ∨ uses_plan "creator" d.

(** ** Vocabulary of the record life cycle *)

(** The record [d] as [fulfill_order] rewrites it at time [t]. *)
Definition fulfilled_at (t : datetime) (d : document) : document :=
  <["fulfilled" := VBool true]> (<["fulfilledAt" := VDate t]> d).

(** [d'] is [d], or [d] after a fulfilment. *)
Definition record_evolves (d d' : document) : Prop :=
  d' = d ∨ ∃ t, d' = fulfilled_at t d.

(** [c'] holds the records of [c], each at its place and as it was or
    fulfilled since, followed by the records that came later. *)
Definition collection_evolves (c c' : Collection.t) : Prop :=
  ∃ c1 c2, c' = c1 ++ c2 ∧ Forall2 record_evolves c c1.

(** The record is marked fulfilled. *)
Definition is_fulfilled (d : document) : Prop :=
  d !! "fulfilled" = Some (VBool true).

Global Instance is_fulfilled_dec d : Decision (is_fulfilled d).
Proof. unfold is_fulfilled. apply _. Defined.

Global Typeclasses Opaque is_fulfilled.

(** A record as [generate_order] writes it under [catalog] and
    [fulfill_order] may have rewritten it since: an identifier of the form
    SS-[0-9A-F]{8}, a plan of the catalog with the attributes the catalog
    gives it, a creation time, the two constants, an [_id], and either
    [fulfilled] false with no [fulfilledAt] or [fulfilled] true with the
    time of fulfilment. *)
Definition well_formed_order (catalog : gmap string plan_info)
    (d : document) : Prop :=
  (∃ order_id, d !! "orderId" = Some (VStr order_id) ∧
               Str.matches_order_id order_id = true) ∧
  (∃ p info, catalog !! p = Some info ∧
             d !! "plan" = Some (VStr p) ∧
             d !! "planName" = Some (VStr (name info)) ∧
             d !! "price" = Some (VStr (price info)) ∧
             d !! "description" = Some (VStr (description info)) ∧
             d !! "delivery" = Some (VStr (delivery info)) ∧
             d !! "features" = Some (VList (features info))) ∧
  (∃ t, d !! "timestamp" = Some (VDate t)) ∧
  d !! "status" = Some (VStr "payment_confirmed") ∧
  d !! "whatsappNumber" = Some (VStr "+1234567890") ∧
  (∃ oid, d !! "_id" = Some (VOid oid)) ∧
  ((d !! "fulfilled" = Some (VBool false) ∧ d !! "fulfilledAt" = None) ∨
   (d !! "fulfilled" = Some (VBool true) ∧
    ∃ t, d !! "fulfilledAt" = Some (VDate t))).

(** The request is a [generate_order] for a plan of the catalog. *)
Definition places_order (catalog : gmap string plan_info) (r : request) : bool :=
  match r with
  | GenerateOrder _ _ _ order_request =>
      bool_decide (is_Some (catalog !! plan order_request))
  | _ => false
  end.

(** The timestamp of the record is a date before [now]. *)
Definition created_before (now : datetime) (d : document) : Prop :=
  ∃ t, d !! "timestamp" = Some (VDate t) ∧ t < now.

(** ** A sample run *)

(** Three orders placed at times 100, 200 and 300 (and some microseconds),
    the first of them fulfilled at time 400. Their identifiers are
    SS-00000001, SS-00000002 and SS-00000003. *)
Definition sample_requests : list request :=
  [ GenerateOrder (1 * 2 ^ 96) (Instant 100 123) 1%N {| plan := "snap" |};
    GenerateOrder (2 * 2 ^ 96) (Instant 200 456) 2%N {| plan := "creator" |};
    GenerateOrder (3 * 2 ^ 96) (Instant 300 789) 3%N {| plan := "snap" |};
    FulfillOrder 400 "SS-00000001" ].

Definition sample_collection : Collection.t :=
  run_with PLAN_DETAILS sample_requests [].

(** The order identifiers of a listing, in the order of the listing. *)
Definition listed_ids (r : response OrdersResponse) : list string :=
  match r with
  | Ok r =>
      omap (λ d : document,
              match d !! "orderId" with Some (VStr s) => Some s | _ => None end)
           (orders r)
  | HTTPException _ _ => []
  end.

(** A later edition of the catalog: the plan [snap] renamed and repriced. *)
Definition sample_later_catalog : gmap string plan_info :=
  <["snap" := {|
      name := "Snap Plus";
      price := "$4.99";
      description := "1 full-length custom song";
      delivery := "1 hour";
      features := ["1 custom song"] |}]> PLAN_DETAILS.

(** Requests that follow the sample run, served under the later catalog. *)
Definition sample_later_requests : list request :=
  [ GenerateOrder (5 * 2 ^ 96) (Instant 600 5) 5%N {| plan := "snap" |};
    FulfillOrder 700 "SS-00000004";
    GetOrder "SS-00000004";
    GenerateOrder (4 * 2 ^ 96) (Instant 800 6) 6%N {| plan := "snap" |} ].

(** * Properties *)

(** ** Order identifiers *)

Section StrFacts.

Lemma all_app p s1 s2 :
  Str.all p (s1 +:+ s2) = Str.all p s1 && Str.all p s2.
Proof.
  induction s1 as [|c s1 IH]; [done|].
  change (String c s1 +:+ s2) with (String c (s1 +:+ s2)).
  simpl. by rewrite IH, andb_assoc.
Qed.

Lemma all_zeros n : Str.all Str.is_lower_hex (Str.zeros n) = true.
Proof. induction n; simpl; [done|]. by rewrite IHn. Qed.

Lemma all_hex_digits d :
  Str.all Str.is_lower_hex (NilEmpty.string_of_uint d) = true.
Proof. induction d; simpl; try done; by rewrite IHd. Qed.

Lemma all_prefix_of p n s :
  Str.all p s = true → Str.all p (Str.prefix_of n s) = true.
Proof.
  unfold Str.prefix_of. revert s.
  induction n as [|n IH]; intros [|c s]; simpl; try done.
  intros [Hc Hs]%andb_prop. rewrite Hc. by apply IH.
Qed.

Lemma upper_ascii_hex c :
  Str.is_lower_hex c = true → Str.is_upper_hex (Str.upper_ascii c) = true.
Proof. destruct c as [[] [] [] [] [] [] [] []]; by vm_compute. Qed.

Lemma all_upper s :
  Str.all Str.is_lower_hex s = true →
  Str.all Str.is_upper_hex (Str.upper s) = true.
Proof.
  induction s as [|c s IH]; simpl; [done|].
  intros [Hc Hs]%andb_prop. by rewrite upper_ascii_hex, IH.
Qed.

Lemma length_upper s : String.length (Str.upper s) = String.length s.
Proof. induction s; simpl; congruence. Qed.

Lemma length_app s1 s2 :
  String.length (s1 +:+ s2) = (String.length s1 + String.length s2)%nat.
Proof.
  induction s1 as [|c s1 IH]; [done|].
  change (String c s1 +:+ s2) with (String c (s1 +:+ s2)).
  simpl. by rewrite IH.
Qed.

Lemma length_zeros n : String.length (Str.zeros n) = n.
Proof. induction n; simpl; congruence. Qed.

Lemma length_prefix_of n s :
  (n ≤ String.length s)%nat → String.length (Str.prefix_of n s) = n.
Proof.
  unfold Str.prefix_of. revert s.
  induction n as [|n IH]; intros [|c s]; simpl; try done; try lia.
  intros ?. rewrite IH; [done|lia].
Qed.

(** The hex form of a UUID has at least 32 characters, all in [0-9a-f]. *)
Lemma uuid_hex_length n : (32 ≤ String.length (uuid_hex n))%nat.
Proof.
  unfold uuid_hex, Str.format_032x. rewrite length_app, length_zeros. lia.
Qed.

Lemma uuid_hex_digits n : Str.all Str.is_lower_hex (uuid_hex n) = true.
Proof.
  unfold uuid_hex, Str.format_032x.
  by rewrite all_app, all_zeros, all_hex_digits.
Qed.

Lemma make_order_id_matches uuid4 :
  Str.matches_order_id (make_order_id uuid4) = true.
Proof.
  unfold make_order_id.
  change ("SS-" +:+ ?s) with (String "S" (String "S" (String "-" s))).
  unfold Str.matches_order_id.
  rewrite length_upper, length_prefix_of
    by (pose proof (uuid_hex_length uuid4); lia).
  rewrite all_upper; [done|].
  apply all_prefix_of, uuid_hex_digits.
Qed.

End StrFacts.

(** ** Queries *)

Section CollectionFacts.

Implicit Types (c : Collection.t) (d query : document).

Lemma matches_empty d : Collection.matches ∅ d.
Proof. unfold Collection.matches. apply map_Forall_empty. Qed.

Lemma matches_singleton k v d :
  Collection.matches {[k := v]} d ↔ d !! k = Some v.
Proof.
  unfold Collection.matches.
  apply (map_Forall_singleton (λ k v, d !! k = Some v)).
Qed.

Lemma matches_insert k v query d :
  query !! k = None →
  Collection.matches (<[k := v]> query) d ↔
  d !! k = Some v ∧ Collection.matches query d.
Proof.
  intros Hk. unfold Collection.matches.
  by apply (map_Forall_insert (λ k v, d !! k = Some v)).
Qed.

Lemma matches_nonempty k v d : Collection.matches {[k := v]} d → d ≠ ∅.
Proof. intros Hm%matches_singleton ->. by rewrite lookup_empty in Hm. Qed.

Lemma find_one_Some query c d :
  Collection.find_one query c = Some d →
  ∃ i, c !! i = Some d ∧ Collection.matches query d ∧
       ∀ j d', c !! j = Some d' → (j < i)%nat → ¬ Collection.matches query d'.
Proof.
  unfold Collection.find_one.
  intros ([i d'] & E%list_find_Some & ->)%fmap_Some. simpl. eauto.
Qed.

Lemma find_one_None query c :
  Collection.find_one query c = None ↔
  Forall (λ d, ¬ Collection.matches query d) c.
Proof.
  unfold Collection.find_one. rewrite fmap_None. apply list_find_None.
Qed.

Lemma update_one_matched query fields c i d :
  list_find (Collection.matches query) c = Some (i, d) →
  Collection.update_one query fields c = (1, <[i := fields ∪ d]> c).
Proof. unfold Collection.update_one. by intros ->. Qed.

Lemma update_one_unmatched query fields c :
  list_find (Collection.matches query) c = None →
  Collection.update_one query fields c = (0, c).
Proof. unfold Collection.update_one. by intros ->. Qed.

(** Replacing the first hit by a document that is a hit again keeps it the
    first hit. *)
Lemma list_find_insert_hit {A} (P : A → Prop) `{!∀ x, Decision (P x)}
    (l : list A) i x y :
  list_find P l = Some (i, x) → P y →
  list_find P (<[i := y]> l) = Some (i, y).
Proof.
  intros (Hi & _ & Hleast)%list_find_Some Hy.
  apply list_find_insert_Some. right; left.
  split_and!; eauto using lookup_lt_Some.
Qed.

(** A list that is pointwise related to [l], with more elements after it,
    has its first hit where [l] has it, when the relation respects [P]. *)
Lemma list_find_Forall2_app {A} (P : A → Prop) `{!∀ x, Decision (P x)}
    (R : relation A) (l l1 l2 : list A) i x :
  (∀ a b, R a b → P a ↔ P b) →
  Forall2 R l l1 →
  list_find P l = Some (i, x) →
  ∃ y, list_find P (l1 ++ l2) = Some (i, y) ∧ R x y.
Proof.
  intros HR HF (Hi & Hx & Hleast)%list_find_Some.
  destruct (Forall2_lookup_l _ _ _ _ _ HF Hi) as (y & Hy & Hxy).
  exists y. split; [|done].
  apply list_find_app_l, list_find_Some.
  split_and!; [done|by apply (HR _ _ Hxy)|].
  intros j b Hj Hlt Hb.
  destruct (Forall2_lookup_r _ _ _ _ _ HF Hj) as (a & Ha & Hab).
  eapply Hleast; [done..|]. by apply (HR _ _ Hab).
Qed.

End CollectionFacts.

(** ** Creating orders *)

(** The keys of the catalog are the three plan codes. *)
Lemma PLAN_DETAILS_keys p :
  is_Some (PLAN_DETAILS !! p) ↔ p = "snap" ∨ p = "snappack" ∨ p = "creator".
Proof.
  split.
  - intros Hp. unfold PLAN_DETAILS in Hp.
    destruct (decide (p = "snap")) as [|H1]; [by left|].
    destruct (decide (p = "snappack")) as [|H2]; [by right; left|].
    destruct (decide (p = "creator")) as [|H3]; [by right; right|].
    rewrite !lookup_insert_ne, lookup_empty in Hp by done.
    by destruct Hp.
  - intros [-> | [-> | ->]]; eexists; reflexivity.
Qed.

Example make_order_id_sample :
  make_order_id (0xDEADBEEF * 2 ^ 96 + 12345) = "SS-DEADBEEF".
Proof. reflexivity. Qed.

Example make_order_id_small : make_order_id 48879 = "SS-00000000".
Proof. reflexivity. Qed.

Lemma generate_order_with_ok catalog uuid4 now oid req c info :
  catalog !! plan req = Some info →
  generate_order_with catalog uuid4 now oid req c =
    (Ok {| resp_orderId := make_order_id uuid4;
           resp_plan := plan req;
           resp_price := price info;
           resp_timestamp := now;
           resp_whatsappNumber := "+1234567890" |},
     c ++ [<["_id" := VOid oid]>
             (order_doc (make_order_id uuid4) (plan req) info now)]).
Proof.
  intros Hinfo. unfold generate_order_with, Collection.insert_one.
  rewrite Hinfo. done.
Qed.

(** C1. For a plan code that is a key of the catalog, [generate_order]
    answers with an order identifier of the form SS-[0-9A-F]{8} and appends
    exactly one document to the collection: it carries that identifier, has
    [fulfilled] false and no [fulfilledAt] field. *)
Theorem generate_order_valid_plan uuid4 now oid req c :
  is_Some (PLAN_DETAILS !! plan req) →
  ∃ resp doc,
    generate_order uuid4 now oid req c = (Ok resp, c ++ [doc]) ∧
    Str.matches_order_id (resp_orderId resp) = true ∧
    doc !! "orderId" = Some (VStr (resp_orderId resp)) ∧
    doc !! "fulfilled" = Some (VBool false) ∧
    doc !! "fulfilledAt" = None.
Proof.
  intros [info Hinfo]. unfold generate_order.
  rewrite (generate_order_with_ok _ _ _ _ _ _ _ Hinfo).
  eexists _, _. split; [done|]. simpl.
  split; [apply make_order_id_matches|].
  unfold order_doc. by simplify_map_eq.
Qed.

Lemma generate_order_valid_plan_witness :
  is_Some (PLAN_DETAILS !! "snap") ∧
  ∃ resp doc,
    generate_order 48879%N (Instant 100 123) 1%N {| plan := "snap" |} [] = (Ok resp, [] ++ [doc]) ∧
    Str.matches_order_id (resp_orderId resp) = true ∧
    doc !! "orderId" = Some (VStr (resp_orderId resp)) ∧
    doc !! "fulfilled" = Some (VBool false) ∧
    doc !! "fulfilledAt" = None.
Proof.
  assert (H : is_Some (PLAN_DETAILS !! "snap")) by (eexists; reflexivity).
  split; [exact H|].
  exact (generate_order_valid_plan 48879%N (Instant 100 123) 1%N {| plan := "snap" |} [] H).
Defined.

(** C2. For a plan code that is not a key of the catalog, the empty string
    included, [generate_order] raises HTTP 400 and leaves the collection as
    it found it. *)
Theorem generate_order_invalid_plan uuid4 now oid req c :
  PLAN_DETAILS !! plan req = None →
  generate_order uuid4 now oid req c =
    (HTTPException 400 "Invalid plan type", c).
Proof.
  intros Hnone. unfold generate_order, generate_order_with.
  by rewrite Hnone.
Qed.

Lemma generate_order_invalid_plan_witness :
  PLAN_DETAILS !! "" = None ∧
  generate_order 48879%N (Instant 100 123) 1%N {| plan := "" |} [{["orderId" := VStr "SS-0000BEEF"]}] =
    (HTTPException 400 "Invalid plan type", [{["orderId" := VStr "SS-0000BEEF"]}]).
Proof.
  split; [reflexivity|].
  apply (generate_order_invalid_plan 48879%N (Instant 100 123) 1%N {| plan := "" |}).
  reflexivity.
Defined.

(** ** Fulfilling orders *)

Section Fulfilment.

Implicit Types (c : Collection.t) (d : document).

Lemma matches_order_id order_id d :
  Collection.matches {["orderId" := VStr order_id]} d ↔ has_order_id order_id d.
Proof. apply matches_singleton. Qed.

Lemma list_find_order_id order_id c :
  list_find (Collection.matches {["orderId" := VStr order_id]}) c =
  list_find (has_order_id order_id) c.
Proof. apply list_find_ext, matches_order_id. Qed.

Lemma fulfilled_fields_union now d :
  fulfilled_fields now ∪ d =
  <["fulfilled" := VBool true]> (<["fulfilledAt" := VDate now]> d).
Proof.
  unfold fulfilled_fields. by rewrite <-!insert_union_l, (left_id_L ∅ (∪)).
Qed.

Lemma fulfilled_fields_frame now d :
  same_but_fulfilment d (fulfilled_fields now ∪ d).
Proof.
  intros k ??. rewrite fulfilled_fields_union. by simplify_map_eq.
Qed.

Lemma same_but_fulfilment_order_id order_id d d' :
  same_but_fulfilment d d' → has_order_id order_id d ↔ has_order_id order_id d'.
Proof. intros Hs. unfold has_order_id. by rewrite (Hs "orderId"). Qed.

Lemma fulfill_order_found now order_id c i d :
  list_find (has_order_id order_id) c = Some (i, d) →
  fulfill_order now order_id c =
    (Ok {| message := "Order fulfilled successfully";
           fulfilled_orderId := order_id |},
     <[i := <["fulfilled" := VBool true]> (<["fulfilledAt" := VDate now]> d)]> c).
Proof.
  intros Hf. unfold fulfill_order.
  rewrite (update_one_matched _ _ _ i d) by by rewrite list_find_order_id.
  by rewrite fulfilled_fields_union.
Qed.

Lemma fulfill_order_not_found now order_id c :
  list_find (has_order_id order_id) c = None →
  fulfill_order now order_id c = (HTTPException 404 "Order not found", c).
Proof.
  intros Hf. unfold fulfill_order.
  by rewrite update_one_unmatched by by rewrite list_find_order_id.
Qed.

(** What one fulfilment leaves in the collection. *)
Lemma fulfill_order_collection now order_id c :
  snd (fulfill_order now order_id c) =
  match list_find (has_order_id order_id) c with
  | Some (i, d) =>
      <[i := <["fulfilled" := VBool true]> (<["fulfilledAt" := VDate now]> d)]> c
  | None => c
  end.
Proof.
  destruct (list_find _ c) as [[i d]|] eqn:Hf.
  - by rewrite (fulfill_order_found _ _ _ _ _ Hf).
  - by rewrite (fulfill_order_not_found _ _ _ Hf).
Qed.

End Fulfilment.

Lemma fulfilled_twice t1 t2 (d : document) :
  <["fulfilled" := VBool true]> (<["fulfilledAt" := VDate t2]>
    (<["fulfilled" := VBool true]> (<["fulfilledAt" := VDate t1]> d))) =
  <["fulfilled" := VBool true]> (<["fulfilledAt" := VDate t2]> d).
Proof.
  apply map_eq. intros k.
  destruct (decide (k = "fulfilled")) as [->|]; [by simplify_map_eq|].
  destruct (decide (k = "fulfilledAt")) as [->|]; by simplify_map_eq.
Qed.

Lemma find_one_order_id order_id (c : Collection.t) i d :
  list_find (has_order_id order_id) c = Some (i, d) →
  Collection.find_one {["orderId" := VStr order_id]} c = Some d.
Proof.
  intros Hf. unfold Collection.find_one. by rewrite list_find_order_id, Hf.
Qed.

(** C3. Fulfilling an order that exists twice: both calls succeed, the
    record is fulfilled after each, [fulfilledAt] holds the time of the
    first call after the first and the time of the second call after the
    second, and the collection is the one a single fulfilment at the
    second time would have left. *)
Theorem fulfill_order_twice t1 t2 order_id (c : Collection.t) :
  Exists (has_order_id order_id) c →
  ∃ r1 r2 c1 c2 d1 d2,
    fulfill_order t1 order_id c = (Ok r1, c1) ∧
    Collection.find_one {["orderId" := VStr order_id]} c1 = Some d1 ∧
    d1 !! "fulfilled" = Some (VBool true) ∧
    d1 !! "fulfilledAt" = Some (VDate t1) ∧
    fulfill_order t2 order_id c1 = (Ok r2, c2) ∧
    Collection.find_one {["orderId" := VStr order_id]} c2 = Some d2 ∧
    d2 !! "fulfilled" = Some (VBool true) ∧
    d2 !! "fulfilledAt" = Some (VDate t2) ∧
    c2 = snd (fulfill_order t2 order_id c).
Proof.
  intros (d0 & Hin & Hid)%Exists_exists.
  destruct (list_find_elem_of (has_order_id order_id) c d0 Hin Hid)
    as [[i d] Hf].
  pose proof Hf as (Hi & Hd & _)%list_find_Some.
  set (upd t (x : document) :=
    <["fulfilled" := VBool true]> (<["fulfilledAt" := VDate t]> x)).
  assert (Hkeep : ∀ t x, has_order_id order_id x → has_order_id order_id (upd t x)).
  { intros t x Hx. unfold has_order_id, upd. by simplify_map_eq. }
  assert (Hf1 : list_find (has_order_id order_id) (<[i := upd t1 d]> c)
                = Some (i, upd t1 d)).
  { apply (list_find_insert_hit _ _ _ d); auto. }
  assert (Hf2 : list_find (has_order_id order_id) (<[i := upd t2 d]> c)
                = Some (i, upd t2 d)).
  { apply (list_find_insert_hit _ _ _ d); auto. }
  eexists _, _, (<[i := upd t1 d]> c), (<[i := upd t2 d]> c),
    (upd t1 d), (upd t2 d).
  split_and!.
  - apply fulfill_order_found, Hf.
  - by eapply find_one_order_id.
  - unfold upd. by simplify_map_eq.
  - unfold upd. by simplify_map_eq.
  - rewrite (fulfill_order_found _ _ _ _ _ Hf1).
    unfold upd. by rewrite list_insert_insert_eq, fulfilled_twice.
  - by eapply find_one_order_id.
  - unfold upd. by simplify_map_eq.
  - unfold upd. by simplify_map_eq.
  - by rewrite (fulfill_order_found _ _ _ _ _ Hf).
Qed.

(** C4. Fulfilling an identifier that no record carries: the collection
    reports a match count of 0, the handler raises HTTP 404 and the
    collection is as it was. *)
Theorem fulfill_order_unknown now order_id (c : Collection.t) :
  Forall (λ d, ¬ has_order_id order_id d) c →
  fst (Collection.update_one
         {["orderId" := VStr order_id]} (fulfilled_fields now) c) = 0 ∧
  fulfill_order now order_id c = (HTTPException 404 "Order not found", c).
Proof.
  intros Hnone. apply (list_find_None (has_order_id order_id)) in Hnone.
  split.
  - by rewrite update_one_unmatched by by rewrite list_find_order_id.
  - by apply fulfill_order_not_found.
Qed.

Lemma fulfill_order_twice_witness :
  Exists (has_order_id "SS-00000002") sample_collection ∧
  ∃ r1 r2 c1 c2 d1 d2,
    fulfill_order 500 "SS-00000002" sample_collection = (Ok r1, c1) ∧
    Collection.find_one {["orderId" := VStr "SS-00000002"]} c1 = Some d1 ∧
    d1 !! "fulfilled" = Some (VBool true) ∧
    d1 !! "fulfilledAt" = Some (VDate 500) ∧
    fulfill_order 600 "SS-00000002" c1 = (Ok r2, c2) ∧
    Collection.find_one {["orderId" := VStr "SS-00000002"]} c2 = Some d2 ∧
    d2 !! "fulfilled" = Some (VBool true) ∧
    d2 !! "fulfilledAt" = Some (VDate 600) ∧
    c2 = snd (fulfill_order 600 "SS-00000002" sample_collection).
Proof.
  assert (H : Exists (has_order_id "SS-00000002") sample_collection)
    by (apply (bool_decide_unpack _); vm_compute; exact I).
  split; [exact H|].
  exact (fulfill_order_twice 500 600 "SS-00000002" sample_collection H).
Defined.

Lemma fulfill_order_unknown_witness :
  Forall (λ d, ¬ has_order_id "SS-0000BEEF" d) sample_collection ∧
  fst (Collection.update_one
         {["orderId" := VStr "SS-0000BEEF"]} (fulfilled_fields 500)
         sample_collection) = 0 ∧
  fulfill_order 500 "SS-0000BEEF" sample_collection =
    (HTTPException 404 "Order not found", sample_collection).
Proof.
  assert (H : Forall (λ d, ¬ has_order_id "SS-0000BEEF" d) sample_collection)
    by (apply (bool_decide_unpack _); vm_compute; exact I).
  split; [exact H|].
  exact (fulfill_order_unknown 500 "SS-0000BEEF" sample_collection H).
Defined.

(** ** What requests leave of the records *)

Section Frame.

Implicit Types (c : Collection.t) (d : document).

Global Instance same_but_fulfilment_refl : Reflexive same_but_fulfilment.
Proof. by intros d k. Qed.

Global Instance same_but_fulfilment_trans : Transitive same_but_fulfilment.
Proof. intros d1 d2 d3 H12 H23 k ??. by rewrite H23, H12. Qed.

Lemma grows_from_refl c : grows_from c c.
Proof.
  exists c, []. split; [by rewrite app_nil_r|]. reflexivity.
Qed.

Lemma grows_from_trans c1 c2 c3 :
  grows_from c1 c2 → grows_from c2 c3 → grows_from c1 c3.
Proof.
  intros (k1 & k2 & -> & H1) (l1 & l2 & -> & H2).
  apply Forall2_app_inv_l in H2 as (m1 & m2 & Hm1 & _ & ->).
  exists m1, (m2 ++ l2). split; [by rewrite (assoc_L (++))|].
  by etrans.
Qed.

Lemma grows_from_app c c2 : grows_from c (c ++ c2).
Proof. exists c, c2. split; [done|]. reflexivity. Qed.

Lemma grows_from_lookup c c' i d :
  grows_from c c' → c !! i = Some d →
  ∃ d', c' !! i = Some d' ∧ same_but_fulfilment d d'.
Proof.
  intros (c1 & c2 & -> & HF) Hi.
  destruct (Forall2_lookup_l _ _ _ _ _ HF Hi) as (d' & Hd' & Hs).
  exists d'. split; [|done]. by apply lookup_app_l_Some.
Qed.

Lemma generate_order_with_collection catalog uuid4 now oid req c :
  snd (generate_order_with catalog uuid4 now oid req c) =
  match catalog !! plan req with
  | Some info =>
      c ++ [<["_id" := VOid oid]>
              (order_doc (make_order_id uuid4) (plan req) info now)]
  | None => c
  end.
Proof.
  destruct (catalog !! plan req) as [info|] eqn:Hinfo.
  - by rewrite (generate_order_with_ok _ _ _ _ _ _ _ Hinfo).
  - unfold generate_order_with. by rewrite Hinfo.
Qed.

Lemma fulfill_order_grows now order_id c :
  grows_from c (snd (fulfill_order now order_id c)).
Proof.
  rewrite fulfill_order_collection.
  destruct (list_find _ c) as [[i d]|] eqn:Hf; [|apply grows_from_refl].
  apply list_find_Some in Hf as (Hi & _ & _).
  eexists _, []. split; [by rewrite app_nil_r|].
  rewrite <-(list_insert_id c i d) at 1 by done.
  apply Forall2_insert; [reflexivity|].
  rewrite <-fulfilled_fields_union. apply fulfilled_fields_frame.
Qed.

Lemma handle_with_grows catalog r c : grows_from c (handle_with catalog r c).
Proof.
  destruct r; simpl; try apply grows_from_refl.
  - rewrite generate_order_with_collection.
    destruct (catalog !! _); [apply grows_from_app|apply grows_from_refl].
  - apply fulfill_order_grows.
Qed.

Lemma run_with_grows catalog rs c : grows_from c (run_with catalog rs c).
Proof.
  unfold run_with. revert c.
  induction rs as [|r rs IH]; intros c; simpl; [apply grows_from_refl|].
  eapply grows_from_trans; [apply handle_with_grows|apply IH].
Qed.

End Frame.

(** C9. Fulfilment writes [fulfilled] and [fulfilledAt] of the matched
    record and nothing else: the collection keeps its length, every record
    keeps its place and every other field (the timestamp among them), and a
    record that did change is the first one carrying the identifier. Over
    any run of requests, under any catalog, every record stays in the
    collection, with the same fields but for those two. *)
Theorem fulfill_order_frame catalog now order_id rs (c : Collection.t) i d :
  c !! i = Some d →
  length (snd (fulfill_order now order_id c)) = length c ∧
  (∃ d', snd (fulfill_order now order_id c) !! i = Some d' ∧
         same_but_fulfilment d d' ∧
         d' !! "timestamp" = d !! "timestamp" ∧
         (d' ≠ d → list_find (has_order_id order_id) c = Some (i, d))) ∧
  (∃ d', run_with catalog rs c !! i = Some d' ∧
         same_but_fulfilment d d' ∧
         d' !! "timestamp" = d !! "timestamp").
Proof.
  intros Hi. split_and!.
  - rewrite fulfill_order_collection.
    destruct (list_find _ c) as [[j x]|]; [apply length_insert|done].
  - rewrite fulfill_order_collection.
    destruct (list_find _ c) as [[j x]|] eqn:Hf; [|by exists d].
    pose proof Hf as (Hj & _ & _)%list_find_Some.
    destruct (decide (j = i)) as [->|Hne].
    + assert (x = d) as -> by congruence.
      eexists. split; [apply list_lookup_insert_eq; by eapply lookup_lt_Some|].
      rewrite <-fulfilled_fields_union.
      split_and!; [apply fulfilled_fields_frame|by apply fulfilled_fields_frame|done].
    + exists d. by rewrite list_lookup_insert_ne.
  - destruct (grows_from_lookup _ _ _ _ (run_with_grows catalog rs c) Hi)
      as (d' & Hd' & Hs).
    exists d'. split_and!; [done..|by apply Hs].
Qed.

Lemma fulfill_order_frame_witness :
  ∃ d, sample_collection !! 0%nat = Some d ∧
  length (snd (fulfill_order 500 "SS-00000002" sample_collection)) =
    length sample_collection ∧
  (∃ d', snd (fulfill_order 500 "SS-00000002" sample_collection) !! 0%nat
           = Some d' ∧
         same_but_fulfilment d d' ∧
         d' !! "timestamp" = d !! "timestamp" ∧
         (d' ≠ d →
          list_find (has_order_id "SS-00000002") sample_collection = Some (0%nat, d))) ∧
  (∃ d', run_with PLAN_DETAILS sample_requests sample_collection !! 0%nat
           = Some d' ∧
         same_but_fulfilment d d' ∧
         d' !! "timestamp" = d !! "timestamp").
Proof.
  eexists. split; [reflexivity|].
  apply (fulfill_order_frame PLAN_DETAILS 500 "SS-00000002" sample_requests
           sample_collection 0).
  reflexivity.
Defined.

(** ** Reading one order *)

Lemma get_order_found order_id (c : Collection.t) i d :
  list_find (has_order_id order_id) c = Some (i, d) →
  get_order order_id c = Ok (delete "_id" d).
Proof.
  intros Hf. unfold get_order. rewrite (find_one_order_id _ _ _ _ Hf).
  apply list_find_Some in Hf as (_ & Hd & _).
  case_decide as Hempty; [|done].
  unfold has_order_id in Hd. by rewrite Hempty, lookup_empty in Hd.
Qed.

Lemma get_order_not_found order_id (c : Collection.t) :
  list_find (has_order_id order_id) c = None →
  get_order order_id c = HTTPException 404 "Order not found".
Proof.
  intros Hf. unfold get_order, Collection.find_one.
  by rewrite list_find_order_id, Hf.
Qed.

(** A new order with an identifier that no record carries yet is the first
    record to carry it. *)
Lemma list_find_new_order order_id (c : Collection.t) d :
  Forall (λ d, ¬ has_order_id order_id d) c →
  has_order_id order_id d →
  list_find (has_order_id order_id) (c ++ [d]) = Some (length c, d).
Proof.
  intros Hnone Hd. apply (list_find_None (has_order_id order_id)) in Hnone.
  rewrite list_find_app_r by done. simpl. by rewrite decide_True.
Qed.

(** C8. [get_order] on an identifier that a record carries returns the
    first such record without its [_id] and with every other field as
    stored; on an identifier that no record carries it raises HTTP 404.
    An order created under one catalog, with an identifier that was not in
    use, is returned with the fields it was created with (the plan
    attributes of that catalog among them, the two fulfilment fields
    apart) after any run of requests served under any other catalog. *)
Theorem get_order_stored_record catalog1 catalog2 uuid4 now oid req info rs
    order_id (c c0 : Collection.t) i d :
  (list_find (has_order_id order_id) c = Some (i, d) →
   ∃ r, get_order order_id c = Ok r ∧
        r !! "_id" = None ∧ ∀ k, k ≠ "_id" → r !! k = d !! k) ∧
  (Forall (λ d, ¬ has_order_id order_id d) c →
   get_order order_id c = HTTPException 404 "Order not found") ∧
  (catalog1 !! plan req = Some info →
   Forall (λ d, ¬ has_order_id (make_order_id uuid4) d) c0 →
   ∃ r, get_order (make_order_id uuid4)
          (run_with catalog2 rs
             (snd (generate_order_with catalog1 uuid4 now oid req c0))) = Ok r ∧
        r !! "_id" = None ∧
        ∀ k, k ≠ "fulfilled" → k ≠ "fulfilledAt" →
             r !! k = order_doc (make_order_id uuid4) (plan req) info now !! k).
Proof.
  split_and!.
  - intros Hf. exists (delete "_id" d).
    split_and!; [by eapply get_order_found|apply lookup_delete_eq|].
    intros k Hk. by apply lookup_delete_ne.
  - intros Hnone. apply get_order_not_found.
    by apply (list_find_None (has_order_id order_id)).
  - intros Hinfo Hfresh.
    rewrite generate_order_with_collection, Hinfo.
    set (id := make_order_id uuid4) in *.
    set (snapshot := order_doc id (plan req) info now).
    assert (Hnew : has_order_id id (<["_id" := VOid oid]> snapshot)).
    { unfold has_order_id, snapshot, order_doc. by simplify_map_eq. }
    pose proof (list_find_new_order _ _ _ Hfresh Hnew) as Hf.
    destruct (run_with_grows catalog2 rs (c0 ++ [<["_id" := VOid oid]> snapshot]))
      as (c1 & c2 & -> & HF).
    destruct (list_find_Forall2_app (has_order_id id) same_but_fulfilment
                _ c1 c2 _ _ (same_but_fulfilment_order_id id) HF Hf)
      as (y & Hy & Hs).
    exists (delete "_id" y).
    split_and!; [by eapply get_order_found|apply lookup_delete_eq|].
    intros k Hk1 Hk2. destruct (decide (k = "_id")) as [->|Hk].
    + rewrite lookup_delete_eq. unfold snapshot, order_doc. by simplify_map_eq.
    + rewrite lookup_delete_ne, (Hs k), lookup_insert_ne by done. done.
Qed.

Lemma get_order_stored_record_witness :
  ∃ d,
    list_find (has_order_id "SS-00000001") sample_collection = Some (0%nat, d) ∧
    (∃ r, get_order "SS-00000001" sample_collection = Ok r ∧
          r !! "_id" = None ∧ ∀ k, k ≠ "_id" → r !! k = d !! k) ∧
    Forall (λ d, ¬ has_order_id "SS-00000004" d) sample_collection ∧
    get_order "SS-00000004" sample_collection =
      HTTPException 404 "Order not found" ∧
    ∃ r, get_order "SS-00000004"
           (run_with sample_later_catalog sample_later_requests
              (snd (generate_order (4 * 2 ^ 96) (Instant 500 321) 4%N {| plan := "snap" |}
                      sample_collection))) = Ok r ∧
         r !! "price" = Some (VStr "$3.99") ∧
         r !! "timestamp" = Some (VDate 500).
Proof.
  eexists.
  assert (Hf : list_find (has_order_id "SS-00000001") sample_collection
               = Some (0%nat, _)) by reflexivity.
  assert (Hnone : Forall (λ d, ¬ has_order_id "SS-00000004" d) sample_collection)
    by (apply (bool_decide_unpack _); vm_compute; exact I).
  pose (info := {| name := "Snap";
                   price := "$3.99";
                   description := "1 full-length custom song with cover art";
                   delivery := "2 hours";
                   features := ["1 custom song"; "Simple cover art";
                                "2-hour delivery"; "No edits"] |}).
  assert (Hinfo : PLAN_DETAILS !! "snap" = Some info) by reflexivity.
  split_and!; [exact Hf| |exact Hnone| |].
  - exact (proj1 (get_order_stored_record PLAN_DETAILS sample_later_catalog
      (4 * 2 ^ 96) (Instant 500 321) 4%N {| plan := "snap" |} info sample_later_requests
      "SS-00000001" sample_collection sample_collection 0%nat _) Hf).
  - exact (proj1 (proj2 (get_order_stored_record PLAN_DETAILS
      sample_later_catalog (4 * 2 ^ 96) (Instant 500 321) 4%N {| plan := "snap" |} info
      sample_later_requests "SS-00000004" sample_collection sample_collection
      0%nat ∅)) Hnone).
  - destruct (proj2 (proj2 (get_order_stored_record PLAN_DETAILS
      sample_later_catalog (4 * 2 ^ 96) (Instant 500 321) 4%N {| plan := "snap" |} info
      sample_later_requests "SS-00000004" sample_collection sample_collection
      0%nat ∅)) Hinfo Hnone) as (r & Hr & _ & Hk).
    exists r. split; [exact Hr|].
    split; [exact (Hk "price" ltac:(discriminate) ltac:(discriminate))
           |exact (Hk "timestamp" ltac:(discriminate) ltac:(discriminate))].
Defined.

(** ** Statistics *)

Section Counting.

Context {A : Type} (P1 P2 P3 : A → Prop).
Context `{!∀ x, Decision (P1 x), !∀ x, Decision (P2 x), !∀ x, Decision (P3 x)}.
Hypothesis disjoint12 : ∀ x, P1 x → P2 x → False.
Hypothesis disjoint13 : ∀ x, P1 x → P3 x → False.
Hypothesis disjoint23 : ∀ x, P2 x → P3 x → False.

(** Three filters that exclude one another select no more elements than
    the list has. *)
Lemma length_filter3 (l : list A) :
  (length (filter P1 l) + length (filter P2 l) + length (filter P3 l)
   ≤ length l)%nat.
Proof.
  induction l as [|x l IH]; [done|].
  rewrite !filter_cons.
  destruct (decide (P1 x)), (decide (P2 x)), (decide (P3 x));
    simpl; try lia; exfalso; eauto.
Qed.

(** They select all of them exactly when every element passes one. *)
Lemma length_filter3_all (l : list A) :
  (length (filter P1 l) + length (filter P2 l) + length (filter P3 l)
   = length l)%nat ↔
  Forall (λ x, P1 x ∨ P2 x ∨ P3 x) l.
Proof.
  induction l as [|x l IH]; [by split; [constructor|]|].
  pose proof (length_filter3 l) as Hle.
  rewrite Forall_cons, <-IH, !filter_cons.
  destruct (decide (P1 x)), (decide (P2 x)), (decide (P3 x));
    simpl; try (exfalso; by eauto); try (split; [intros ?; split; [tauto|lia]|lia]).
  split; [lia|tauto].
Qed.

End Counting.

Lemma count_documents_all (c : Collection.t) :
  Collection.count_documents ∅ c = Z.of_nat (length c).
Proof.
  unfold Collection.count_documents. f_equal.
  induction c as [|d c IH]; [done|].
  rewrite filter_cons_True by apply matches_empty. simpl. by rewrite IH.
Qed.

Lemma count_documents_field k v (c : Collection.t) :
  Collection.count_documents {[k := v]} c =
  Z.of_nat (length (filter (λ d : document, d !! k = Some v) c)).
Proof.
  unfold Collection.count_documents. do 2 f_equal.
  apply list_filter_iff. intros d. apply matches_singleton.
Qed.

Lemma count_documents_plan p (c : Collection.t) :
  Collection.count_documents {["plan" := VStr p]} c =
  Z.of_nat (length (filter (uses_plan p) c)).
Proof.
  unfold Collection.count_documents. do 2 f_equal.
  apply list_filter_iff. intros d. apply matches_singleton.
Qed.

Lemma uses_plan_disjoint p q d : p ≠ q → uses_plan p d → uses_plan q d → False.
Proof. unfold uses_plan. congruence. Qed.

(** C7. The statistics report the number of records as the total, the
    pending count is the total minus the fulfilled count, the three plan
    counts add up to at most the total, and to the total exactly when every
    record uses one of the three plan codes. *)
Theorem get_stats_counts (c : Collection.t) :
  ∃ s, get_stats c = Ok s ∧
    totalOrders s = Z.of_nat (length c) ∧
    fulfilledOrders s =
      Z.of_nat (length (filter (λ d : document,
                                  d !! "fulfilled" = Some (VBool true)) c)) ∧
    pendingOrders s = totalOrders s - fulfilledOrders s ∧
    0 ≤ pendingOrders s ∧
    snap (planBreakdown s) + snappack (planBreakdown s)
      + creator (planBreakdown s) ≤ totalOrders s ∧
    (snap (planBreakdown s) + snappack (planBreakdown s)
       + creator (planBreakdown s) = totalOrders s ↔
     Forall uses_known_plan c).
Proof.
  eexists. split; [reflexivity|]. simpl.
  rewrite count_documents_all, !count_documents_plan, count_documents_field.
  pose proof (length_filter3 (uses_plan "snap") (uses_plan "snappack")
    (uses_plan "creator")
    ltac:(intros d; by apply uses_plan_disjoint)
    ltac:(intros d; by apply uses_plan_disjoint)
    ltac:(intros d; by apply uses_plan_disjoint) c) as Hle.
  pose proof (length_filter3_all (uses_plan "snap") (uses_plan "snappack")
    (uses_plan "creator")
    ltac:(intros d; by apply uses_plan_disjoint)
    ltac:(intros d; by apply uses_plan_disjoint)
    ltac:(intros d; by apply uses_plan_disjoint) c) as Hall.
  pose proof (length_filter
    (λ d : document, d !! "fulfilled" = Some (VBool true)) c) as Hful.
  split_and!; [done|done|done|lia|lia|].
  change (Forall uses_known_plan c) with
    (Forall (λ d, uses_plan "snap" d ∨ uses_plan "snappack" d
                  ∨ uses_plan "creator" d) c).
  rewrite <-Hall. lia.
Qed.

(** ** Listing orders *)

Section Listing.

Implicit Types (c : Collection.t) (d : document).

Lemma orders_query_matches fulfilled plan d :
  Collection.matches (orders_query fulfilled plan) d ↔
  satisfies_filters fulfilled plan d.
Proof.
  unfold orders_query, satisfies_filters.
  destruct fulfilled as [b|], plan as [p|].
  - rewrite matches_insert by done. rewrite matches_insert by done.
    pose proof (matches_empty d). tauto.
  - rewrite matches_insert by done. pose proof (matches_empty d). tauto.
  - rewrite matches_insert by done. pose proof (matches_empty d). tauto.
  - pose proof (matches_empty d). tauto.
Qed.

Lemma find_orders_query fulfilled plan c :
  Collection.find (orders_query fulfilled plan) c =
  filter (satisfies_filters fulfilled plan) c.
Proof. apply list_filter_iff, orders_query_matches. Qed.

Global Instance key_le_trans : Transitive Collection.key_le.
Proof. intros [x|] [y|] [z|]; simpl; try done. lia. Qed.

Global Instance key_le_total : Total Collection.key_le.
Proof. intros [x|] [y|]; simpl; auto. lia. Qed.

Global Instance desc_trans field : Transitive (Collection.desc field).
Proof. intros d1 d2 d3 H12 H23. unfold Collection.desc in *. by etrans. Qed.

Global Instance desc_total field : Total (Collection.desc field).
Proof. intros d1 d2. unfold Collection.desc. apply key_le_total. Qed.

Lemma sort_desc_sorted field c :
  StronglySorted (Collection.desc field) (Collection.sort_desc field c).
Proof. unfold Collection.sort_desc. apply StronglySorted_merge_sort; apply _. Qed.

Lemma sort_desc_Permutation field c : Collection.sort_desc field c ≡ₚ c.
Proof. apply merge_sort_Permutation. Qed.

Lemma desc_delete_id d1 d2 :
  Collection.desc "timestamp" d1 d2 →
  Collection.desc "timestamp" (delete "_id" d1) (delete "_id" d2).
Proof.
  unfold Collection.desc, Collection.date_key.
  by rewrite !lookup_delete_ne by done.
Qed.

Lemma StronglySorted_take {A} (R : relation A) n (l : list A) :
  StronglySorted R l → StronglySorted R (take n l).
Proof.
  rewrite <-(take_drop n l) at 1. apply StronglySorted_app_1_l.
Qed.

Lemma limit_zero c : Collection.limit 0 c = c.
Proof. done. Qed.

Lemma limit_pos n c : 0 < n → Collection.limit n c = take (Z.to_nat n) c.
Proof.
  intros Hn. unfold Collection.limit.
  destruct (Z.eqb_spec n 0) as [->|_]; [lia|].
  by rewrite Zabs2Nat.abs_nat_nonneg by lia.
Qed.

Lemma limit_sorted {R : relation document} n c :
  StronglySorted R c → StronglySorted R (Collection.limit n c).
Proof.
  unfold Collection.limit. destruct (n =? 0); [done|apply StronglySorted_take].
Qed.

Lemma limit_subseteq n c : Collection.limit n c ⊆ c.
Proof.
  unfold Collection.limit. destruct (n =? 0); [done|apply subseteq_take].
Qed.

(** What [get_orders] returns, in the words of the filters. *)
Lemma get_orders_eq limit fulfilled plan c :
  get_orders limit fulfilled plan c =
  let orders :=
    delete "_id" <$>
      Collection.limit (default 50 limit)
        (Collection.sort_desc "timestamp"
           (filter (satisfies_filters fulfilled plan) c)) in
  Ok {| orders := orders; count := Z.of_nat (length orders) |}.
Proof. unfold get_orders. by rewrite find_orders_query. Qed.

End Listing.

(** C5, amended. [get_orders] returns the matching orders in an order that
    is descending by timestamp, for every limit; an absent limit is the
    limit 50; a positive limit cuts the listing to its first [limit]
    orders, and a limit of 0 cuts nothing; on a collection of three or
    more orders, a limit of 2 and no filter return two orders that are at
    least as recent as every other one. *)
Theorem get_orders_sorted_truncated limit fulfilled plan (c : Collection.t) :
  get_orders None fulfilled plan c = get_orders (Some 50) fulfilled plan c ∧
  ∃ r sorted,
    get_orders limit fulfilled plan c = Ok r ∧
    sorted ≡ₚ filter (satisfies_filters fulfilled plan) c ∧
    StronglySorted (Collection.desc "timestamp") sorted ∧
    StronglySorted (Collection.desc "timestamp") (orders r) ∧
    count r = Z.of_nat (length (orders r)) ∧
    (0 < default 50 limit →
     orders r = delete "_id" <$> take (Z.to_nat (default 50 limit)) sorted ∧
     length (orders r) =
       Nat.min (Z.to_nat (default 50 limit))
               (length (filter (satisfies_filters fulfilled plan) c))) ∧
    (default 50 limit = 0 →
     orders r = delete "_id" <$> sorted ∧
     length (orders r) =
       length (filter (satisfies_filters fulfilled plan) c)) ∧
    (limit = Some 2 → fulfilled = None → plan = None → (3 ≤ length c)%nat →
     ∃ d1 d2 rest,
       c ≡ₚ d1 :: d2 :: rest ∧
       orders r = [delete "_id" d1; delete "_id" d2] ∧
       Collection.desc "timestamp" d1 d2 ∧
       Forall (Collection.desc "timestamp" d2) rest).
Proof.
  split; [done|].
  set (matching := filter (satisfies_filters fulfilled plan) c).
  set (sorted := Collection.sort_desc "timestamp" matching).
  assert (Hperm : sorted ≡ₚ matching) by apply sort_desc_Permutation.
  assert (Hsorted : StronglySorted (Collection.desc "timestamp") sorted)
    by apply sort_desc_sorted.
  assert (Hget : get_orders limit fulfilled plan c =
    Ok {| orders := delete "_id" <$> Collection.limit (default 50 limit) sorted;
          count := Z.of_nat (length (delete "_id" <$>
                     Collection.limit (default 50 limit) sorted)) |})
    by apply get_orders_eq.
  eexists _, sorted. split; [exact Hget|]. simpl.
  split_and!; try done.
  - apply (StronglySorted_fmap _ (Collection.desc "timestamp")).
    + apply desc_delete_id.
    + by apply limit_sorted.
  - intros Hpos. rewrite (limit_pos (default 50 limit) sorted Hpos).
    split; [done|]. by rewrite length_fmap, length_take, Hperm.
  - intros ->. rewrite limit_zero.
    split; [done|]. by rewrite length_fmap, Hperm.
  - intros -> -> -> Hlen. simpl.
    rewrite (limit_pos 2 sorted) by done.
    assert (matching = c) as Hall.
    { unfold matching. clear. induction c as [|d c IH]; [done|].
      rewrite filter_cons_True by done. by rewrite IH. }
    rewrite Hall in Hperm.
    assert (length sorted = length c) as Hl by by rewrite Hperm.
    destruct sorted as [|d1 [|d2 rest]]; simpl in Hl; try lia.
    exists d1, d2, rest. split_and!; [done|done|..].
    + apply StronglySorted_cons in Hsorted as [Hd1 _].
      by apply Forall_cons in Hd1 as [? _].
    + apply StronglySorted_cons in Hsorted as [_ Hd2].
      by apply StronglySorted_cons in Hd2 as [? _].
Qed.

Lemma get_orders_sorted_truncated_witness :
  0 < default 50 (Some 2) ∧
  ∃ r d1 d2 rest,
    get_orders (Some 2) None None sample_collection = Ok r ∧
    StronglySorted (Collection.desc "timestamp") (orders r) ∧
    length (orders r) = 2%nat ∧
    sample_collection ≡ₚ d1 :: d2 :: rest ∧
    orders r = [delete "_id" d1; delete "_id" d2] ∧
    Collection.desc "timestamp" d1 d2 ∧
    Forall (Collection.desc "timestamp" d2) rest.
Proof.
  assert (H : 0 < default 50 (Some 2)) by reflexivity.
  split; [exact H|].
  destruct (get_orders_sorted_truncated (Some 2) None None sample_collection)
    as (_ & r & sorted & Hr & _ & _ & Hs & _ & Hcut & _ & Htwo).
  destruct (Hcut H) as [_ Hlen].
  destruct (Htwo eq_refl eq_refl eq_refl ltac:(vm_compute; lia))
    as (d1 & d2 & rest & ?).
  exists r, d1, d2, rest. split; [exact Hr|]. split; [exact Hs|].
  split; [exact Hlen|]. assumption.
Defined.

(** C5 as the specification states it fails at a limit of 0: the three
    orders of the sample collection are all returned, where a truncation
    to the limit would return none. *)
Lemma get_orders_limit_zero_counterexample :
  ∃ r, get_orders (Some 0) None None sample_collection = Ok r ∧
       length (orders r) = 3%nat ∧
       ¬ (length (orders r) ≤ Z.to_nat 0)%nat ∧
       orders r ≠
         delete "_id" <$>
           take (Z.to_nat 0) (Collection.sort_desc "timestamp" sample_collection).
Proof.
  eexists. split; [reflexivity|].
  split; [reflexivity|]. split; [vm_compute; lia|]. by vm_compute.
Qed.

(** C6. [get_orders] returns the orders that satisfy every filter the
    request supplies, and only those: its answer is the sorted and limited
    listing of exactly the stored orders that satisfy the filters, every
    returned order comes from such a stored order, and when the limit does
    not cut (a limit of 0, or at least as large as the number of such
    orders) every such order is returned. With both filters supplied an
    order satisfies them when both hold of it; with none supplied every
    order does. *)
Theorem get_orders_filters limit fulfilled plan (c : Collection.t) :
  ∃ r,
    get_orders limit fulfilled plan c = Ok r ∧
    orders r =
      delete "_id" <$>
        Collection.limit (default 50 limit)
          (Collection.sort_desc "timestamp"
             (filter (satisfies_filters fulfilled plan) c)) ∧
    (∀ o, o ∈ orders r →
          ∃ d, d ∈ c ∧ satisfies_filters fulfilled plan d ∧ o = delete "_id" d) ∧
    (default 50 limit = 0 ∨
     (length (filter (satisfies_filters fulfilled plan) c)
      ≤ Z.abs_nat (default 50%Z limit))%nat →
     orders r ≡ₚ delete "_id" <$> filter (satisfies_filters fulfilled plan) c) ∧
    (∀ b p d, satisfies_filters (Some b) (Some p) d ↔
              d !! "fulfilled" = Some (VBool b) ∧ d !! "plan" = Some (VStr p)) ∧
    (∀ d, satisfies_filters None None d).
Proof.
  eexists. split; [apply get_orders_eq|]. simpl.
  split_and!; try done.
  - intros o (d & -> & Hd)%list_elem_of_fmap.
    apply limit_subseteq in Hd. rewrite sort_desc_Permutation in Hd.
    apply list_elem_of_filter in Hd as [? ?]. eauto.
  - intros Hcut. apply fmap_Permutation.
    rewrite <-(sort_desc_Permutation "timestamp" (filter _ c)) at 2.
    unfold Collection.limit. destruct (Z.eqb_spec (default 50 limit) 0) as [|Hne];
      [done|].
    destruct Hcut as [?|Hlen]; [done|].
    rewrite take_ge; [done|]. by rewrite sort_desc_Permutation.
Qed.

(** C10. With a limit of 0 [get_orders] returns every order that satisfies
    the filters, so its answer is not empty as soon as one does; with no
    limit in the request the answer is the one for a limit of 50, of at
    most 50 orders. *)
Theorem get_orders_limit_zero fulfilled plan (c : Collection.t) :
  ∃ r r50,
    get_orders (Some 0) fulfilled plan c = Ok r ∧
    orders r ≡ₚ delete "_id" <$> filter (satisfies_filters fulfilled plan) c ∧
    length (orders r) = length (filter (satisfies_filters fulfilled plan) c) ∧
    (Exists (satisfies_filters fulfilled plan) c → orders r ≠ []) ∧
    get_orders None fulfilled plan c = Ok r50 ∧
    get_orders (Some 50) fulfilled plan c = Ok r50 ∧
    length (orders r50) =
      Nat.min 50 (length (filter (satisfies_filters fulfilled plan) c)).
Proof.
  pose proof (get_orders_eq (Some 0) fulfilled plan c) as H0.
  pose proof (get_orders_eq None fulfilled plan c) as Hnone.
  pose proof (get_orders_eq (Some 50) fulfilled plan c) as H50.
  cbv zeta in H0, Hnone, H50. simpl in H0, Hnone, H50.
  rewrite limit_zero in H0.
  set (matching := filter (satisfies_filters fulfilled plan) c) in *.
  assert (Hlen : length (delete "_id" <$>
                   Collection.sort_desc "timestamp" matching)
                 = length matching).
  { by rewrite length_fmap, sort_desc_Permutation. }
  eexists _, _. split; [exact H0|]. simpl.
  split_and!; [|done| |exact Hnone|exact H50|].
  - apply fmap_Permutation, sort_desc_Permutation.
  - intros (d & Hd & Hsat)%Exists_exists Hnil.
    rewrite Hnil in Hlen. simpl in Hlen.
    assert (d ∈ matching) as Hin by by apply list_elem_of_filter.
    destruct matching; [by apply not_elem_of_nil in Hin|done].
  - simpl. rewrite limit_pos by done.
    by rewrite length_fmap, length_take, sort_desc_Permutation.
Qed.

(** ** The sample run, evaluated *)

Example sample_get_orders_default :
  listed_ids (get_orders None None None sample_collection)
  = ["SS-00000003"; "SS-00000002"; "SS-00000001"].
Proof. reflexivity. Qed.

Example sample_get_orders_limit_2 :
  listed_ids (get_orders (Some 2) None None sample_collection)
  = ["SS-00000003"; "SS-00000002"].
Proof. reflexivity. Qed.

Example sample_get_orders_limit_0 :
  listed_ids (get_orders (Some 0) (Some false) None sample_collection)
  = ["SS-00000003"; "SS-00000002"].
Proof. reflexivity. Qed.

Example sample_get_orders_limit_negative :
  listed_ids (get_orders (Some (-1)) None None sample_collection)
  = ["SS-00000003"].
Proof. reflexivity. Qed.

Example sample_get_orders_both_filters :
  listed_ids (get_orders None (Some true) (Some "snap") sample_collection)
  = ["SS-00000001"].
Proof. reflexivity. Qed.

Example sample_get_stats :
  get_stats sample_collection =
  Ok {| totalOrders := 3;
        fulfilledOrders := 1;
        pendingOrders := 2;
        planBreakdown := {| snap := 2; snappack := 0; creator := 1 |} |}.
Proof. reflexivity. Qed.

(** One order on plan [snap], created and then fulfilled. *)

Example scenario_created :
  fst (generate_order (7 * 2 ^ 96) (Instant 10 999) 1%N {| plan := "snap" |} []) =
  Ok {| resp_orderId := "SS-00000007";
        resp_plan := "snap";
        resp_price := "$3.99";
        resp_timestamp := Instant 10 999;
        resp_whatsappNumber := "+1234567890" |}.
Proof. reflexivity. Qed.

Example scenario_plan_price : price <$> get_plans !! "snap" = Some "$3.99".
Proof. reflexivity. Qed.

Example scenario_fulfilled :
  match
    get_order "SS-00000007"
      (run_with PLAN_DETAILS
         [GenerateOrder (7 * 2 ^ 96) (Instant 10 999) 1%N {| plan := "snap" |};
          FulfillOrder 20 "SS-00000007"] [])
  with
  | Ok d => (d !! "_id", d !! "fulfilled", d !! "fulfilledAt")
  | HTTPException _ _ => (None, None, None)
  end = (None, Some (VBool true), Some (VDate 20)).
Proof. reflexivity. Qed.

Example scenario_stats :
  get_stats
    (run_with PLAN_DETAILS
       [GenerateOrder (7 * 2 ^ 96) (Instant 10 999) 1%N {| plan := "snap" |};
        FulfillOrder 20 "SS-00000007"] []) =
  Ok {| totalOrders := 1;
        fulfilledOrders := 1;
        pendingOrders := 0;
        planBreakdown := {| snap := 1; snappack := 0; creator := 0 |} |}.
Proof. reflexivity. Qed.

(** * Further properties of the handlers *)

(** ** How records evolve *)

Section Evolution.

Implicit Types (c : Collection.t) (d : document).

Lemma fulfilled_at_twice t1 t2 d :
  fulfilled_at t2 (fulfilled_at t1 d) = fulfilled_at t2 d.
Proof. apply fulfilled_twice. Qed.

Lemma fulfilled_at_lookup_ne t d k :
  k ≠ "fulfilled" → k ≠ "fulfilledAt" → fulfilled_at t d !! k = d !! k.
Proof. intros. unfold fulfilled_at. by simplify_map_eq. Qed.

Lemma fulfilled_at_fulfilled t d :
  fulfilled_at t d !! "fulfilled" = Some (VBool true).
Proof. unfold fulfilled_at. by simplify_map_eq. Qed.

Lemma fulfilled_at_fulfilledAt t d :
  fulfilled_at t d !! "fulfilledAt" = Some (VDate t).
Proof. unfold fulfilled_at. by simplify_map_eq. Qed.

Lemma fulfilled_at_order_id order_id t d :
  has_order_id order_id (fulfilled_at t d) ↔ has_order_id order_id d.
Proof. unfold has_order_id. by rewrite fulfilled_at_lookup_ne. Qed.

Global Instance record_evolves_refl : Reflexive record_evolves.
Proof. intros d. by left. Qed.

Global Instance record_evolves_trans : Transitive record_evolves.
Proof.
  intros d1 d2 d3 [->|[t1 ->]] [->|[t2 ->]]; unfold record_evolves; eauto.
  right. exists t2. apply fulfilled_at_twice.
Qed.

Lemma record_evolves_lookup_ne d d' k :
  record_evolves d d' → k ≠ "fulfilled" → k ≠ "fulfilledAt" →
  d' !! k = d !! k.
Proof. intros [->|[t ->]] ??; [done|]. by apply fulfilled_at_lookup_ne. Qed.

Lemma record_evolves_fulfilled d d' :
  record_evolves d d' → is_fulfilled d → is_fulfilled d'.
Proof.
  intros [->|[t ->]] Hd; [done|]. apply fulfilled_at_fulfilled.
Qed.

Lemma collection_evolves_refl c : collection_evolves c c.
Proof. exists c, []. split; [by rewrite app_nil_r|]. reflexivity. Qed.

Lemma collection_evolves_trans c1 c2 c3 :
  collection_evolves c1 c2 → collection_evolves c2 c3 →
  collection_evolves c1 c3.
Proof.
  intros (k1 & k2 & -> & H1) (l1 & l2 & -> & H2).
  apply Forall2_app_inv_l in H2 as (m1 & m2 & Hm1 & _ & ->).
  exists m1, (m2 ++ l2). split; [by rewrite (assoc_L (++))|].
  by etrans.
Qed.

Lemma collection_evolves_app c c2 : collection_evolves c (c ++ c2).
Proof. exists c, c2. split; [done|]. reflexivity. Qed.

Lemma fulfill_order_evolves now order_id c :
  collection_evolves c (snd (fulfill_order now order_id c)).
Proof.
  rewrite fulfill_order_collection.
  destruct (list_find _ c) as [[i d]|] eqn:Hf; [|apply collection_evolves_refl].
  apply list_find_Some in Hf as (Hi & _ & _).
  eexists _, []. split; [by rewrite app_nil_r|].
  rewrite <-(list_insert_id c i d) at 1 by done.
  apply Forall2_insert; [reflexivity|].
  right. by exists now.
Qed.

Lemma handle_with_evolves catalog r c :
  collection_evolves c (handle_with catalog r c).
Proof.
  destruct r; simpl; try apply collection_evolves_refl.
  - rewrite generate_order_with_collection.
    destruct (catalog !! _);
      [apply collection_evolves_app|apply collection_evolves_refl].
  - apply fulfill_order_evolves.
Qed.

Lemma run_with_evolves catalog rs c :
  collection_evolves c (run_with catalog rs c).
Proof.
  unfold run_with. revert c.
  induction rs as [|r rs IH]; intros c; simpl; [apply collection_evolves_refl|].
  eapply collection_evolves_trans; [apply handle_with_evolves|apply IH].
Qed.

Lemma run_with_app catalog rs1 rs2 c :
  run_with catalog (rs1 ++ rs2) c = run_with catalog rs2 (run_with catalog rs1 c).
Proof. unfold run_with. apply foldl_app. Qed.

End Evolution.

(** ** Creating an order and reading it back *)

Lemma order_doc_no_id order_id plan_code info now :
  order_doc order_id plan_code info now !! "_id" = None.
Proof. unfold order_doc. by simplify_map_eq. Qed.

Lemma order_doc_order_id order_id plan_code info now oid :
  has_order_id order_id
    (<["_id" := VOid oid]> (order_doc order_id plan_code info now)).
Proof. unfold has_order_id, order_doc. by simplify_map_eq. Qed.

Lemma collection_evolves_lookup (c c' : Collection.t) i d :
  collection_evolves c c' → c !! i = Some d →
  ∃ d', c' !! i = Some d' ∧ record_evolves d d'.
Proof.
  intros (c1 & c2 & -> & HF) Hi.
  destruct (Forall2_lookup_l _ _ _ _ _ HF Hi) as (d' & Hd' & Hs).
  exists d'. split; [|done]. by apply lookup_app_l_Some.
Qed.

(** X1. An order created under an identifier that no record carries yet
    is read back by [get_order], under the identifier of the response, as
    the document [generate_order] built, without [_id]: it has the
    identifier, the plan and the price of the response, the attributes of
    the catalog entry, and is not fulfilled. Its timestamp is the
    timestamp of the response cut to the millisecond: the response carries
    the instant as the handler read it, the store its milliseconds. *)
Theorem generate_order_then_get_order uuid4 now oid req (c : Collection.t) info :
  PLAN_DETAILS !! plan req = Some info →
  Forall (λ d, ¬ has_order_id (make_order_id uuid4) d) c →
  ∃ resp c' r,
    generate_order uuid4 now oid req c = (Ok resp, c') ∧
    resp_plan resp = plan req ∧
    resp_price resp = price info ∧
    resp_timestamp resp = now ∧
    get_order (resp_orderId resp) c' = Ok r ∧
    r = order_doc (resp_orderId resp) (resp_plan resp) info
          (resp_timestamp resp) ∧
    r !! "_id" = None ∧
    r !! "orderId" = Some (VStr (resp_orderId resp)) ∧
    r !! "plan" = Some (VStr (resp_plan resp)) ∧
    r !! "price" = Some (VStr (resp_price resp)) ∧
    r !! "timestamp" = Some (VDate (millis (resp_timestamp resp))) ∧
    r !! "fulfilled" = Some (VBool false) ∧
    r !! "fulfilledAt" = None.
Proof.
  intros Hinfo Hfresh. unfold generate_order.
  rewrite (generate_order_with_ok _ _ _ _ _ _ _ Hinfo).
  eexists _, _, _. split; [reflexivity|]. simpl.
  split_and!; [done|done|done| |reflexivity|..].
  - erewrite get_order_found.
    + by rewrite delete_insert_id by apply order_doc_no_id.
    + apply list_find_new_order; [done|apply order_doc_order_id].
  - apply order_doc_no_id.
  - unfold order_doc. by simplify_map_eq.
  - unfold order_doc. by simplify_map_eq.
  - unfold order_doc. by simplify_map_eq.
  - unfold order_doc. by simplify_map_eq.
  - unfold order_doc. by simplify_map_eq.
  - unfold order_doc. by simplify_map_eq.
Qed.

Lemma generate_order_then_get_order_witness :
  ∃ info,
    PLAN_DETAILS !! "creator" = Some info ∧
    Forall (λ d, ¬ has_order_id (make_order_id (9 * 2 ^ 96)) d) sample_collection ∧
    ∃ resp c' r,
      generate_order (9 * 2 ^ 96) (Instant 500 321) 9%N {| plan := "creator" |}
        sample_collection = (Ok resp, c') ∧
      resp_timestamp resp = Instant 500 321 ∧
      get_order (resp_orderId resp) c' = Ok r ∧
      r !! "price" = Some (VStr (resp_price resp)) ∧
      r !! "timestamp" = Some (VDate 500).
Proof.
  eexists.
  assert (Hinfo : PLAN_DETAILS !! "creator" = Some _) by reflexivity.
  assert (Hfresh : Forall (λ d, ¬ has_order_id (make_order_id (9 * 2 ^ 96)) d)
                     sample_collection)
    by (apply (bool_decide_unpack _); vm_compute; exact I).
  split; [exact Hinfo|]. split; [exact Hfresh|].
  destruct (generate_order_then_get_order (9 * 2 ^ 96) (Instant 500 321) 9%N
              {| plan := "creator" |} sample_collection _ Hinfo Hfresh)
    as (resp & c' & r & Hgen & _ & _ & Hts & Hget & _ & _ & _ & _ & Hprice
        & Hstored & _).
  exists resp, c', r. split; [exact Hgen|]. split; [exact Hts|].
  split; [exact Hget|]. split; [exact Hprice|].
  rewrite Hts in Hstored. exact Hstored.
Defined.

(** X2. [generate_order] does not look for the identifier in the
    collection: when a record already carries the identifier of the new
    order, the order is stored all the same, and [get_order] and
    [fulfill_order] under that identifier go on reaching the earlier
    record. *)
Theorem generate_order_reused_identifier uuid4 now t oid req
    (c : Collection.t) i d :
  is_Some (PLAN_DETAILS !! plan req) →
  list_find (has_order_id (make_order_id uuid4)) c = Some (i, d) →
  ∃ resp c',
    generate_order uuid4 now oid req c = (Ok resp, c') ∧
    resp_orderId resp = make_order_id uuid4 ∧
    length c' = S (length c) ∧
    get_order (resp_orderId resp) c' = Ok (delete "_id" d) ∧
    snd (fulfill_order t (resp_orderId resp) c') =
      <[i := fulfilled_at t d]> c'.
Proof.
  intros [info Hinfo] Hf. unfold generate_order.
  rewrite (generate_order_with_ok _ _ _ _ _ _ _ Hinfo).
  eexists _, _. split; [reflexivity|]. simpl.
  pose proof (list_find_app_l _ _ [<["_id" := VOid oid]>
    (order_doc (make_order_id uuid4) (plan req) info now)] _ _ Hf) as Hf'.
  split_and!.
  - done.
  - rewrite List.length_app. simpl. lia.
  - by eapply get_order_found.
  - by rewrite fulfill_order_collection, Hf'.
Qed.

Lemma generate_order_reused_identifier_witness :
  ∃ d,
    is_Some (PLAN_DETAILS !! "snappack") ∧
    list_find (has_order_id (make_order_id (1 * 2 ^ 96))) sample_collection
      = Some (0%nat, d) ∧
    ∃ resp c',
      generate_order (1 * 2 ^ 96) (Instant 500 321) 9%N {| plan := "snappack" |}
        sample_collection = (Ok resp, c') ∧
      resp_orderId resp = make_order_id (1 * 2 ^ 96) ∧
      length c' = S (length sample_collection) ∧
      get_order (resp_orderId resp) c' = Ok (delete "_id" d) ∧
      snd (fulfill_order 600 (resp_orderId resp) c') =
        <[0%nat := fulfilled_at 600 d]> c'.
Proof.
  eexists.
  assert (Hplan : is_Some (PLAN_DETAILS !! "snappack"))
    by (eexists; reflexivity).
  assert (Hf : list_find (has_order_id (make_order_id (1 * 2 ^ 96)))
                 sample_collection = Some (0%nat, _)) by reflexivity.
  split; [exact Hplan|]. split; [exact Hf|].
  exact (generate_order_reused_identifier (1 * 2 ^ 96) (Instant 500 321) 600 9%N
           {| plan := "snappack" |} sample_collection 0%nat _ Hplan Hf).
Defined.

(** X3. Fulfilment is one-way: a record that is marked fulfilled stays
    marked fulfilled, at its place in the collection and with a time of
    fulfilment if it had one, through any run of requests under any
    catalog. *)
Theorem fulfilled_is_kept catalog rs (c : Collection.t) i d :
  c !! i = Some d →
  is_fulfilled d →
  ∃ d', run_with catalog rs c !! i = Some d' ∧
        is_fulfilled d' ∧
        (is_Some (d !! "fulfilledAt") → is_Some (d' !! "fulfilledAt")).
Proof.
  intros Hi Hd.
  destruct (collection_evolves_lookup _ _ _ _ (run_with_evolves catalog rs c) Hi)
    as (d' & Hd' & Hev).
  exists d'. split_and!; [done|by eapply record_evolves_fulfilled|].
  destruct Hev as [->|[t ->]]; [done|].
  intros _. rewrite fulfilled_at_fulfilledAt. by eexists.
Qed.

Lemma fulfilled_is_kept_witness :
  ∃ d,
    sample_collection !! 0%nat = Some d ∧
    is_fulfilled d ∧
    ∃ d', run_with sample_later_catalog sample_later_requests sample_collection
            !! 0%nat = Some d' ∧
          is_fulfilled d' ∧
          (is_Some (d !! "fulfilledAt") → is_Some (d' !! "fulfilledAt")).
Proof.
  eexists.
  assert (Hi : sample_collection !! 0%nat = Some _) by reflexivity.
  split; [exact Hi|].
  assert (Hd : is_fulfilled (fulfilled_fields 400 ∪ <["_id" := VOid 1%N]>
    (order_doc (make_order_id (1 * 2 ^ 96)) "snap"
       {| name := "Snap";
          price := "$3.99";
          description := "1 full-length custom song with cover art";
          delivery := "2 hours";
          features := ["1 custom song"; "Simple cover art";
                       "2-hour delivery"; "No edits"] |} (Instant 100 123))))
    by reflexivity.
  split; [exact Hd|].
  exact (fulfilled_is_kept sample_later_catalog sample_later_requests
           sample_collection 0%nat _ Hi Hd).
Defined.

(** ** Listings and statistics *)

Section Counts.

Implicit Types (c : Collection.t) (d : document).

Lemma count_documents_app query c1 c2 :
  Collection.count_documents query (c1 ++ c2) =
  Collection.count_documents query c1 + Collection.count_documents query c2.
Proof.
  unfold Collection.count_documents.
  rewrite filter_app, List.length_app. lia.
Qed.

Lemma count_documents_one query d :
  Collection.count_documents query [d] =
  if decide (Collection.matches query d) then 1 else 0.
Proof.
  unfold Collection.count_documents. rewrite filter_cons, filter_nil.
  by destruct (decide _).
Qed.

Lemma count_documents_nonneg query c : 0 ≤ Collection.count_documents query c.
Proof. unfold Collection.count_documents. lia. Qed.

Lemma count_documents_le query c :
  Collection.count_documents query c ≤ Z.of_nat (length c).
Proof.
  unfold Collection.count_documents.
  pose proof (length_filter (Collection.matches query) c). lia.
Qed.

(** Replacing one element moves the size of a filter by what the old and
    the new element contribute. *)
Lemma length_filter_insert {A} (P : A → Prop) `{!∀ x, Decision (P x)}
    (l : list A) i x y :
  l !! i = Some x →
  (length (filter P (<[i := y]> l)) + (if decide (P x) then 1 else 0) =
   length (filter P l) + (if decide (P y) then 1 else 0))%nat.
Proof.
  intros Hi.
  rewrite insert_take_drop by by eapply lookup_lt_Some.
  rewrite <-(take_drop_middle l i x Hi) at 3.
  rewrite !filter_app, !filter_cons, !List.length_app.
  destruct (decide (P x)), (decide (P y)); simpl; lia.
Qed.

Lemma count_documents_insert query c i d d' :
  c !! i = Some d →
  Collection.count_documents query (<[i := d']> c)
    + (if decide (Collection.matches query d) then 1 else 0) =
  Collection.count_documents query c
    + (if decide (Collection.matches query d') then 1 else 0).
Proof.
  intros Hi. unfold Collection.count_documents.
  pose proof (length_filter_insert (Collection.matches query) c i d d' Hi).
  destruct (decide (Collection.matches query d)),
           (decide (Collection.matches query d')); lia.
Qed.

Lemma count_documents_orders_query fulfilled plan c :
  Collection.count_documents (orders_query fulfilled plan) c =
  Z.of_nat (length (filter (satisfies_filters fulfilled plan) c)).
Proof.
  unfold Collection.count_documents.
  by rewrite <-find_orders_query.
Qed.

Lemma get_orders_count_unlimited fulfilled plan c :
  ∃ r, get_orders (Some 0) fulfilled plan c = Ok r ∧
       count r = Collection.count_documents (orders_query fulfilled plan) c.
Proof.
  eexists. split; [apply get_orders_eq|]. simpl.
  by rewrite limit_zero, length_fmap, sort_desc_Permutation,
    count_documents_orders_query.
Qed.

Lemma matches_fulfilled_fulfilled_at t d :
  Collection.matches {["fulfilled" := VBool true]} (fulfilled_at t d).
Proof. apply matches_singleton, fulfilled_at_fulfilled. Qed.

Lemma matches_plan_fulfilled_at p t d :
  Collection.matches {["plan" := VStr p]} (fulfilled_at t d) ↔
  Collection.matches {["plan" := VStr p]} d.
Proof. by rewrite !matches_singleton, fulfilled_at_lookup_ne. Qed.

Lemma matches_fulfilled d :
  Collection.matches {["fulfilled" := VBool true]} d ↔ is_fulfilled d.
Proof. apply matches_singleton. Qed.

End Counts.

(** X4. A listing never shows the [_id] of a record, its [count] is the
    number of orders it lists, which is at most the number of records in
    the collection and, for a limit other than 0, at most the size of the
    limit. *)
Theorem get_orders_strips_id limit fulfilled plan (c : Collection.t) :
  ∃ r, get_orders limit fulfilled plan c = Ok r ∧
    Forall (λ o : document, o !! "_id" = None) (orders r) ∧
    count r = Z.of_nat (length (orders r)) ∧
    count r ≤ Z.of_nat (length c) ∧
    (default 50 limit ≠ 0 → count r ≤ Z.abs (default 50 limit)).
Proof.
  eexists. split; [apply get_orders_eq|]. simpl.
  set (sorted := Collection.sort_desc "timestamp"
                   (filter (satisfies_filters fulfilled plan) c)).
  assert (Hlen : (length sorted ≤ length c)%nat).
  { unfold sorted. rewrite sort_desc_Permutation. apply length_filter. }
  split_and!.
  - apply Forall_fmap, Forall_true. intros d. apply lookup_delete_eq.
  - done.
  - rewrite length_fmap. unfold Collection.limit.
    destruct (default 50 limit =? 0); [lia|]. rewrite length_take. lia.
  - intros Hne. rewrite length_fmap. unfold Collection.limit.
    destruct (Z.eqb_spec (default 50 limit) 0) as [|_]; [done|].
    rewrite length_take. lia.
Qed.

Lemma get_orders_strips_id_witness :
  default 50 (Some (-2)) ≠ 0 ∧
  ∃ r, get_orders (Some (-2)) None None sample_collection = Ok r ∧
    Forall (λ o : document, o !! "_id" = None) (orders r) ∧
    count r = Z.of_nat (length (orders r)) ∧
    count r ≤ Z.of_nat (length sample_collection) ∧
    count r ≤ Z.abs (default 50 (Some (-2))).
Proof.
  assert (H : default 50 (Some (-2)) ≠ 0) by discriminate.
  split; [exact H|].
  destruct (get_orders_strips_id (Some (-2)) None None sample_collection)
    as (r & Hr & Hid & Hcount & Hle & Hlim).
  exists r. split; [exact Hr|]. split; [exact Hid|]. split; [exact Hcount|].
  split; [exact Hle|exact (Hlim H)].
Defined.

(** X5. Listings and statistics agree: with a limit of 0, the listing
    without filters counts [totalOrders] orders, the listing of the
    fulfilled orders counts [fulfilledOrders], and the listing of each of
    the three plans counts that plan's entry of [planBreakdown]. *)
Theorem get_orders_agrees_with_get_stats (c : Collection.t) :
  ∃ s r_all r_fulfilled r_snap r_snappack r_creator,
    get_stats c = Ok s ∧
    get_orders (Some 0) None None c = Ok r_all ∧
    count r_all = totalOrders s ∧
    get_orders (Some 0) (Some true) None c = Ok r_fulfilled ∧
    count r_fulfilled = fulfilledOrders s ∧
    get_orders (Some 0) None (Some "snap") c = Ok r_snap ∧
    count r_snap = snap (planBreakdown s) ∧
    get_orders (Some 0) None (Some "snappack") c = Ok r_snappack ∧
    count r_snappack = snappack (planBreakdown s) ∧
    get_orders (Some 0) None (Some "creator") c = Ok r_creator ∧
    count r_creator = creator (planBreakdown s).
Proof.
  destruct (get_orders_count_unlimited None None c) as (r0 & H0 & E0).
  destruct (get_orders_count_unlimited (Some true) None c) as (r1 & H1 & E1).
  destruct (get_orders_count_unlimited None (Some "snap") c) as (r2 & H2 & E2).
  destruct (get_orders_count_unlimited None (Some "snappack") c)
    as (r3 & H3 & E3).
  destruct (get_orders_count_unlimited None (Some "creator") c)
    as (r4 & H4 & E4).
  eexists _, r0, r1, r2, r3, r4. split; [reflexivity|]. simpl.
  split_and!; [exact H0|exact E0|exact H1|exact E1|exact H2|exact E2
              |exact H3|exact E3|exact H4|exact E4].
Qed.

Section StatsSteps.

Implicit Types (c : Collection.t) (d : document).

Lemma new_order_matches_plan order_id plan_code info now oid p :
  Collection.matches {["plan" := VStr p]}
    (<["_id" := VOid oid]> (order_doc order_id plan_code info now)) ↔
  plan_code = p.
Proof.
  rewrite matches_singleton. unfold order_doc. simplify_map_eq.
  split; [by intros [= ->]|by intros ->].
Qed.

Lemma new_order_not_fulfilled order_id plan_code info now oid :
  ¬ Collection.matches {["fulfilled" := VBool true]}
      (<["_id" := VOid oid]> (order_doc order_id plan_code info now)).
Proof.
  rewrite matches_singleton. unfold order_doc. by simplify_map_eq.
Qed.

Lemma get_stats_Ok c s :
  get_stats c = Ok s →
  totalOrders s = Collection.count_documents ∅ c ∧
  fulfilledOrders s =
    Collection.count_documents {["fulfilled" := VBool true]} c ∧
  pendingOrders s = totalOrders s - fulfilledOrders s ∧
  snap (planBreakdown s) =
    Collection.count_documents {["plan" := VStr "snap"]} c ∧
  snappack (planBreakdown s) =
    Collection.count_documents {["plan" := VStr "snappack"]} c ∧
  creator (planBreakdown s) =
    Collection.count_documents {["plan" := VStr "creator"]} c.
Proof. unfold get_stats. by intros [= <-]. Qed.

End StatsSteps.

(** X6. An accepted [generate_order] moves the statistics by one order:
    [totalOrders] and [pendingOrders] grow by 1, [fulfilledOrders] stays,
    and of the three plan counts the one of the order's plan grows by 1
    and the others stay. *)
Theorem get_stats_after_generate_order uuid4 now oid req (c : Collection.t)
    info s :
  PLAN_DETAILS !! plan req = Some info →
  get_stats c = Ok s →
  ∃ s', get_stats (snd (generate_order uuid4 now oid req c)) = Ok s' ∧
    totalOrders s' = totalOrders s + 1 ∧
    fulfilledOrders s' = fulfilledOrders s ∧
    pendingOrders s' = pendingOrders s + 1 ∧
    snap (planBreakdown s') =
      snap (planBreakdown s) + (if decide (plan req = "snap") then 1 else 0) ∧
    snappack (planBreakdown s') =
      snappack (planBreakdown s)
      + (if decide (plan req = "snappack") then 1 else 0) ∧
    creator (planBreakdown s') =
      creator (planBreakdown s)
      + (if decide (plan req = "creator") then 1 else 0) ∧
    snap (planBreakdown s') + snappack (planBreakdown s')
      + creator (planBreakdown s') =
    snap (planBreakdown s) + snappack (planBreakdown s)
      + creator (planBreakdown s) + 1.
Proof.
  intros Hinfo (Ht & Hf & Hp & H1 & H2 & H3)%get_stats_Ok.
  unfold generate_order. rewrite generate_order_with_collection, Hinfo.
  eexists. split; [reflexivity|]. simpl.
  rewrite !count_documents_app, !count_documents_one.
  rewrite decide_True by apply matches_empty.
  rewrite (decide_False (P := Collection.matches {["fulfilled" := _]} _))
    by apply new_order_not_fulfilled.
  assert (Hplan : ∀ p,
    (if decide (Collection.matches {["plan" := VStr p]}
          (<["_id" := VOid oid]>
             (order_doc (make_order_id uuid4) (plan req) info now)))
     then 1 else 0) = (if decide (plan req = p) then 1 else 0)).
  { intros p. destruct (decide (plan req = p)) as [Hp'|Hp'].
    - by rewrite decide_True by by apply new_order_matches_plan.
    - by rewrite decide_False by by rewrite new_order_matches_plan. }
  rewrite !Hplan.
  assert (is_Some (PLAN_DETAILS !! plan req)) as Hkey by by eexists.
  apply PLAN_DETAILS_keys in Hkey.
  split_and!; try lia.
  destruct Hkey as [Hk | [Hk | Hk]]; rewrite Hk; simpl; lia.
Qed.

Lemma get_stats_after_generate_order_witness :
  ∃ info s,
    PLAN_DETAILS !! "creator" = Some info ∧
    get_stats sample_collection = Ok s ∧
    ∃ s', get_stats (snd (generate_order (9 * 2 ^ 96) (Instant 500 321) 9%N
                            {| plan := "creator" |} sample_collection)) = Ok s' ∧
      totalOrders s' = totalOrders s + 1 ∧
      fulfilledOrders s' = fulfilledOrders s ∧
      pendingOrders s' = pendingOrders s + 1 ∧
      creator (planBreakdown s') = creator (planBreakdown s) + 1.
Proof.
  eexists _, _.
  assert (Hinfo : PLAN_DETAILS !! "creator" = Some _) by reflexivity.
  assert (Hs : get_stats sample_collection = Ok _) by reflexivity.
  split; [exact Hinfo|]. split; [exact Hs|].
  destruct (get_stats_after_generate_order (9 * 2 ^ 96) (Instant 500 321) 9%N
              {| plan := "creator" |} sample_collection _ _ Hinfo Hs)
    as (s' & Hs' & Ht & Hf & Hp & _ & _ & Hc & _).
  exists s'. split; [exact Hs'|]. split; [exact Ht|]. split; [exact Hf|].
  split; [exact Hp|exact Hc].
Defined.

(** X7. Fulfilling an order that exists moves the statistics by at most
    one fulfilment: [totalOrders] and the plan counts stay, and
    [fulfilledOrders] grows and [pendingOrders] shrinks by 1 when the
    matched record was not fulfilled yet, and both stay when it was. *)
Theorem get_stats_after_fulfill_order now order_id (c : Collection.t) i d s :
  list_find (has_order_id order_id) c = Some (i, d) →
  get_stats c = Ok s →
  ∃ s', get_stats (snd (fulfill_order now order_id c)) = Ok s' ∧
    totalOrders s' = totalOrders s ∧
    planBreakdown s' = planBreakdown s ∧
    fulfilledOrders s' =
      fulfilledOrders s + (if decide (is_fulfilled d) then 0 else 1) ∧
    pendingOrders s' =
      pendingOrders s - (if decide (is_fulfilled d) then 0 else 1).
Proof.
  intros Hf (Ht & Hfu & Hp & H1 & H2 & H3)%get_stats_Ok.
  rewrite fulfill_order_collection, Hf.
  pose proof Hf as (Hi & _ & _)%list_find_Some.
  fold (fulfilled_at now d).
  eexists. split; [reflexivity|]. simpl.
  assert (Hcount : ∀ query,
    (Collection.matches query (fulfilled_at now d) ↔ Collection.matches query d) →
    Collection.count_documents query (<[i := fulfilled_at now d]> c) =
    Collection.count_documents query c).
  { intros query Hq.
    pose proof (count_documents_insert query c i d (fulfilled_at now d) Hi) as E.
    destruct (decide (Collection.matches query d)),
             (decide (Collection.matches query (fulfilled_at now d)));
      try lia; tauto. }
  rewrite (Hcount ∅) by (split; intros _; apply matches_empty).
  rewrite !(Hcount {["plan" := _]}) by apply matches_plan_fulfilled_at.
  pose proof (count_documents_insert {["fulfilled" := VBool true]} c i d
                (fulfilled_at now d) Hi) as E.
  rewrite (decide_True (P := Collection.matches _ (fulfilled_at now d))) in E
    by apply matches_fulfilled_fulfilled_at.
  assert ((if decide (Collection.matches {["fulfilled" := VBool true]} d)
           then 1 else 0) = 1 - (if decide (is_fulfilled d) then 0 else 1))
    as E'.
  { destruct (decide (is_fulfilled d)) as [Hd|Hd].
    - by rewrite decide_True by by apply matches_fulfilled.
    - by rewrite decide_False by by rewrite matches_fulfilled. }
  split_and!; [lia| |lia|lia].
  destruct s as [? ? ? [? ? ?]]; simpl in *. by subst.
Qed.

Lemma get_stats_after_fulfill_order_witness :
  ∃ d s,
    list_find (has_order_id "SS-00000002") sample_collection = Some (1%nat, d) ∧
    get_stats sample_collection = Ok s ∧
    ∃ s', get_stats (snd (fulfill_order 500 "SS-00000002" sample_collection))
            = Ok s' ∧
      totalOrders s' = totalOrders s ∧
      planBreakdown s' = planBreakdown s ∧
      fulfilledOrders s' =
        fulfilledOrders s + (if decide (is_fulfilled d) then 0 else 1) ∧
      pendingOrders s' =
        pendingOrders s - (if decide (is_fulfilled d) then 0 else 1).
Proof.
  eexists _, _.
  assert (Hf : list_find (has_order_id "SS-00000002") sample_collection
               = Some (1%nat, _)) by reflexivity.
  assert (Hs : get_stats sample_collection = Ok _) by reflexivity.
  split; [exact Hf|]. split; [exact Hs|].
  exact (get_stats_after_fulfill_order 500 "SS-00000002" sample_collection
           1%nat _ _ Hf Hs).
Defined.

(** ** Reading an order after other requests *)

Section ReadAfter.

Implicit Types (c : Collection.t) (d : document).

Lemma get_order_Ok_inv order_id c r :
  get_order order_id c = Ok r →
  ∃ i d, list_find (has_order_id order_id) c = Some (i, d) ∧ r = delete "_id" d.
Proof.
  destruct (list_find (has_order_id order_id) c) as [[i d]|] eqn:Hf.
  - rewrite (get_order_found _ _ _ _ Hf). intros [= <-]. eauto.
  - by rewrite (get_order_not_found _ _ Hf).
Qed.

(** What [get_order] answers, by the first record carrying the
    identifier. *)
Lemma get_order_by_list_find order_id c :
  get_order order_id c =
  match list_find (has_order_id order_id) c with
  | Some (_, d) => Ok (delete "_id" d)
  | None => HTTPException 404 "Order not found"
  end.
Proof.
  destruct (list_find _ c) as [[i d]|] eqn:Hf.
  - by eapply get_order_found.
  - by apply get_order_not_found.
Qed.

(** Replacing a miss by a miss leaves the first hit where it was. *)
Lemma list_find_insert_miss {A} (P : A → Prop) `{!∀ x, Decision (P x)}
    (l : list A) j x y :
  l !! j = Some x → ¬ P x → ¬ P y →
  list_find P (<[j := y]> l) = list_find P l.
Proof.
  revert j. induction l as [|a l IH]; intros [|j] Hj Hx Hy; try done.
  - simpl in Hj. injection Hj as ->. simpl.
    by rewrite !decide_False by done.
  - simpl in *. destruct (decide (P a)); [done|]. by rewrite (IH j).
Qed.

Lemma delete_id_fulfilled_at t d :
  delete "_id" (fulfilled_at t d) = fulfilled_at t (delete "_id" d).
Proof. unfold fulfilled_at. by rewrite !delete_insert_ne by done. Qed.

End ReadAfter.

(** X8. Reading an order after fulfilling it returns what [get_order]
    returned before, with [fulfilled] set to true and [fulfilledAt] set to
    the time of the fulfilment, and every other field as it was. *)
Theorem get_order_after_fulfill_order now order_id (c : Collection.t) r :
  get_order order_id c = Ok r →
  get_order order_id (snd (fulfill_order now order_id c)) =
    Ok (fulfilled_at now r) ∧
  fulfilled_at now r !! "fulfilled" = Some (VBool true) ∧
  fulfilled_at now r !! "fulfilledAt" = Some (VDate now) ∧
  ∀ k, k ≠ "fulfilled" → k ≠ "fulfilledAt" → fulfilled_at now r !! k = r !! k.
Proof.
  intros (i & d & Hf & ->)%get_order_Ok_inv.
  split_and!.
  - rewrite fulfill_order_collection, Hf. fold (fulfilled_at now d).
    rewrite <-delete_id_fulfilled_at. eapply get_order_found.
    apply (list_find_insert_hit _ _ _ d); [done|].
    apply fulfilled_at_order_id. by apply list_find_Some in Hf as (_ & ? & _).
  - apply fulfilled_at_fulfilled.
  - apply fulfilled_at_fulfilledAt.
  - intros k ??. by apply fulfilled_at_lookup_ne.
Qed.

Lemma get_order_after_fulfill_order_witness :
  ∃ r,
    get_order "SS-00000002" sample_collection = Ok r ∧
    get_order "SS-00000002"
      (snd (fulfill_order 500 "SS-00000002" sample_collection)) =
      Ok (fulfilled_at 500 r) ∧
    fulfilled_at 500 r !! "fulfilled" = Some (VBool true) ∧
    fulfilled_at 500 r !! "fulfilledAt" = Some (VDate 500) ∧
    ∀ k, k ≠ "fulfilled" → k ≠ "fulfilledAt" →
         fulfilled_at 500 r !! k = r !! k.
Proof.
  eexists.
  assert (Hr : get_order "SS-00000002" sample_collection = Ok _)
    by reflexivity.
  split; [exact Hr|].
  exact (get_order_after_fulfill_order 500 "SS-00000002" sample_collection
           _ Hr).
Defined.

(** X9. What [get_order] answers for one identifier, a record or the 404,
    is not changed by fulfilling another identifier, nor by creating an
    order under another identifier, whatever the catalog. *)
Theorem get_order_other_identifier catalog uuid4 now t oid req order_id other
    (c : Collection.t) :
  (other ≠ order_id →
   get_order order_id (snd (fulfill_order t other c)) =
   get_order order_id c) ∧
  (make_order_id uuid4 ≠ order_id →
   get_order order_id
     (snd (generate_order_with catalog uuid4 now oid req c)) =
   get_order order_id c).
Proof.
  split; intros Hne.
  - rewrite fulfill_order_collection.
    destruct (list_find (has_order_id other) c) as [[j x]|] eqn:Hf; [|done].
    apply list_find_Some in Hf as (Hj & Hx & _).
    fold (fulfilled_at t x). rewrite !get_order_by_list_find.
    rewrite (list_find_insert_miss _ _ j x); [done..| |].
    + unfold has_order_id in *. congruence.
    + rewrite fulfilled_at_order_id. unfold has_order_id in *. congruence.
  - rewrite generate_order_with_collection.
    destruct (catalog !! plan req) as [info|]; [|done].
    rewrite !get_order_by_list_find.
    set (new := <["_id" := VOid oid]> _).
    assert (Hnew : ¬ has_order_id order_id new).
    { pose proof (order_doc_order_id (make_order_id uuid4) (plan req) info
                    now oid) as Hid.
      fold new in Hid. unfold has_order_id in *. congruence. }
    destruct (list_find (has_order_id order_id) c) as [[i d]|] eqn:Hf.
    + by rewrite (list_find_app_l _ _ _ _ _ Hf).
    + rewrite list_find_app_r by done. simpl. by rewrite decide_False.
Qed.

Lemma get_order_other_identifier_witness :
  "SS-00000002" ≠ "SS-00000001" ∧
  make_order_id (9 * 2 ^ 96) ≠ "SS-00000001" ∧
  get_order "SS-00000001"
    (snd (fulfill_order 500 "SS-00000002" sample_collection)) =
  get_order "SS-00000001" sample_collection ∧
  get_order "SS-00000001"
    (snd (generate_order_with sample_later_catalog (9 * 2 ^ 96) (Instant 500 321) 9%N
            {| plan := "snap" |} sample_collection)) =
  get_order "SS-00000001" sample_collection.
Proof.
  assert (H1 : "SS-00000002" ≠ "SS-00000001") by discriminate.
  assert (H2 : make_order_id (9 * 2 ^ 96) ≠ "SS-00000001") by discriminate.
  split; [exact H1|]. split; [exact H2|].
  destruct (get_order_other_identifier sample_later_catalog (9 * 2 ^ 96)
              (Instant 500 321) 500 9%N {| plan := "snap" |} "SS-00000001"
              "SS-00000002" sample_collection) as [Hful Hgen].
  split; [exact (Hful H1)|exact (Hgen H2)].
Defined.

(** ** Accepted plans *)

(** X10. [generate_order] accepts exactly the plan codes that [get_plans]
    lists, answers with the price [get_plans] gives for the plan, and its
    only failure is the HTTP 400, which leaves the collection as it was. *)
Theorem generate_order_accepts_listed_plans uuid4 now oid req
    (c : Collection.t) :
  (is_Some (get_plans !! plan req) ↔
   ∃ resp, fst (generate_order uuid4 now oid req c) = Ok resp) ∧
  (∀ resp, fst (generate_order uuid4 now oid req c) = Ok resp →
           price <$> get_plans !! plan req = Some (resp_price resp)) ∧
  (∀ code detail,
     fst (generate_order uuid4 now oid req c) = HTTPException code detail →
     code = 400 ∧ detail = "Invalid plan type" ∧
     snd (generate_order uuid4 now oid req c) = c).
Proof.
  unfold get_plans, generate_order.
  destruct (PLAN_DETAILS !! plan req) as [info|] eqn:Hinfo.
  - rewrite (generate_order_with_ok _ _ _ _ _ _ _ Hinfo). simpl.
    split_and!; [split; eauto| |done].
    by intros resp [= <-].
  - unfold generate_order_with. rewrite Hinfo. simpl.
    split_and!; [|done|by intros code detail [= <- <-]].
    split; [by intros [??]|by intros [??]].
Qed.

(** ** Statistics over runs *)

Section Monotone.

Implicit Types (c : Collection.t) (d : document).

Lemma length_filter_Forall2 {A} (P : A → Prop) `{!∀ x, Decision (P x)}
    (R : relation A) (l k : list A) :
  (∀ a b, R a b → P a → P b) →
  Forall2 R l k →
  (length (filter P l) ≤ length (filter P k))%nat.
Proof.
  intros HR. induction 1 as [|a b l k Hab _ IH]; [done|].
  rewrite !filter_cons.
  destruct (decide (P a)) as [Ha|]; destruct (decide (P b)) as [|Hb];
    simpl; try lia.
  destruct Hb. by eapply HR.
Qed.

Lemma count_documents_evolves query c c' :
  (∀ d d', record_evolves d d' →
           Collection.matches query d → Collection.matches query d') →
  collection_evolves c c' →
  Collection.count_documents query c ≤ Collection.count_documents query c'.
Proof.
  intros Hq (c1 & c2 & -> & HF).
  rewrite count_documents_app.
  pose proof (count_documents_nonneg query c2).
  pose proof (length_filter_Forall2 (Collection.matches query) _ _ _ Hq HF).
  unfold Collection.count_documents in *. lia.
Qed.

Lemma record_evolves_matches_field k v d d' :
  k ≠ "fulfilled" → k ≠ "fulfilledAt" →
  record_evolves d d' →
  Collection.matches {[k := v]} d → Collection.matches {[k := v]} d'.
Proof.
  intros ?? Hev. rewrite !matches_singleton.
  by rewrite (record_evolves_lookup_ne _ _ _ Hev).
Qed.

End Monotone.

(** X11. Over any run of requests, under any catalog, no count of the
    statistics other than [pendingOrders] ever goes down: [totalOrders],
    [fulfilledOrders] and the three plan counts after the run are at least
    what they were before. *)
Theorem get_stats_never_decrease catalog rs (c : Collection.t) s s' :
  get_stats c = Ok s →
  get_stats (run_with catalog rs c) = Ok s' →
  totalOrders s ≤ totalOrders s' ∧
  fulfilledOrders s ≤ fulfilledOrders s' ∧
  snap (planBreakdown s) ≤ snap (planBreakdown s') ∧
  snappack (planBreakdown s) ≤ snappack (planBreakdown s') ∧
  creator (planBreakdown s) ≤ creator (planBreakdown s').
Proof.
  intros (Ht & Hf & _ & H1 & H2 & H3)%get_stats_Ok
         (Ht' & Hf' & _ & H1' & H2' & H3')%get_stats_Ok.
  pose proof (run_with_evolves catalog rs c) as Hev.
  rewrite Ht, Ht', Hf, Hf', H1, H1', H2, H2', H3, H3'.
  split_and!; (apply count_documents_evolves; [|exact Hev]).
  - intros d d' _ _. apply matches_empty.
  - intros d d' Hd. rewrite !matches_fulfilled.
    by apply record_evolves_fulfilled.
  - intros d d'. by apply record_evolves_matches_field.
  - intros d d'. by apply record_evolves_matches_field.
  - intros d d'. by apply record_evolves_matches_field.
Qed.

Lemma get_stats_never_decrease_witness :
  ∃ s s',
    get_stats sample_collection = Ok s ∧
    get_stats (run_with sample_later_catalog sample_later_requests
                 sample_collection) = Ok s' ∧
    totalOrders s ≤ totalOrders s' ∧
    fulfilledOrders s ≤ fulfilledOrders s' ∧
    snap (planBreakdown s) ≤ snap (planBreakdown s') ∧
    snappack (planBreakdown s) ≤ snappack (planBreakdown s') ∧
    creator (planBreakdown s) ≤ creator (planBreakdown s').
Proof.
  eexists _, _.
  assert (Hs : get_stats sample_collection = Ok _) by reflexivity.
  assert (Hs' : get_stats (run_with sample_later_catalog sample_later_requests
                             sample_collection) = Ok _) by reflexivity.
  split; [exact Hs|]. split; [exact Hs'|].
  exact (get_stats_never_decrease sample_later_catalog sample_later_requests
           sample_collection _ _ Hs Hs').
Defined.

(** ** Fulfilments of different orders *)




(** ** The newest order in a listing *)

Section Newest.

Implicit Types (c : Collection.t) (d : document).

(** A document that no other document of the list may precede heads the
    sorted list. *)
Lemma sort_desc_head field c d :
  d ∈ c →
  (∀ d', d' ∈ c → d' = d ∨ ¬ Collection.desc field d' d) →
  ∃ tl, Collection.sort_desc field c = d :: tl.
Proof.
  intros Hd Hmax.
  pose proof (sort_desc_sorted field c) as Hsorted.
  pose proof (sort_desc_Permutation field c) as Hperm.
  destruct (Collection.sort_desc field c) as [|h tl].
  - rewrite <-Hperm in Hd. by apply not_elem_of_nil in Hd.
  - assert (h ∈ c) as Hh by (rewrite <-Hperm; left).
    destruct (Hmax h Hh) as [->|Hnot]; [by eexists|].
    rewrite <-Hperm in Hd. apply elem_of_cons in Hd as [->|Hd]; [by eexists|].
    apply StronglySorted_cons in Hsorted as [Hall _].
    destruct Hnot. by eapply Forall_forall in Hall.
Qed.

Lemma limit_head n d tl :
  ∃ rest, Collection.limit n (d :: tl) = d :: rest.
Proof.
  unfold Collection.limit. destruct (Z.eqb_spec n 0) as [|Hn]; [by eexists|].
  destruct (Z.abs_nat n) as [|k] eqn:Hk; [lia|]. by eexists.
Qed.

Lemma new_order_satisfies_filters fulfilled plan d oid :
  satisfies_filters fulfilled plan d →
  satisfies_filters fulfilled plan (<["_id" := VOid oid]> d).
Proof.
  unfold satisfies_filters.
  destruct fulfilled, plan; by rewrite ?lookup_insert_ne by done.
Qed.

Lemma created_before_not_desc now d d' :
  created_before now d' →
  d !! "timestamp" = Some (VDate now) →
  ¬ Collection.desc "timestamp" d' d.
Proof.
  intros (t & Ht & Hlt) Hd.
  unfold Collection.desc, Collection.date_key. rewrite Ht, Hd. simpl. lia.
Qed.

End Newest.

(** X13. Most recent first: when every stored record was created before
    the time, in milliseconds, of a new order, every listing whose filters
    the new order satisfies starts with the new order, whatever the
    limit. *)
Theorem get_orders_newest_first uuid4 now oid req limit fulfilled plan_filter
    (c : Collection.t) info :
  PLAN_DETAILS !! plan req = Some info →
  Forall (created_before (millis now)) c →
  satisfies_filters fulfilled plan_filter
    (order_doc (make_order_id uuid4) (plan req) info now) →
  ∃ r rest,
    get_orders limit fulfilled plan_filter
      (snd (generate_order uuid4 now oid req c)) = Ok r ∧
    orders r = order_doc (make_order_id uuid4) (plan req) info now :: rest.
Proof.
  intros Hinfo Hbefore Hsat.
  unfold generate_order. rewrite generate_order_with_collection, Hinfo.
  set (doc := order_doc (make_order_id uuid4) (plan req) info now).
  set (new := <["_id" := VOid oid]> doc).
  assert (Hnew : satisfies_filters fulfilled plan_filter new)
    by by apply new_order_satisfies_filters.
  assert (Hts : new !! "timestamp" = Some (VDate (millis now))).
  { unfold new, doc, order_doc. by simplify_map_eq. }
  destruct (sort_desc_head "timestamp"
              (filter (satisfies_filters fulfilled plan_filter) (c ++ [new]))
              new) as [tl Htl].
  { apply list_elem_of_filter. split; [done|].
    apply elem_of_app. right. by left. }
  { intros d' [_ [Hd'|Hd']%elem_of_app]%list_elem_of_filter.
    - right. apply (created_before_not_desc (millis now)); [|done].
      by eapply Forall_forall in Hbefore.
    - left. by apply list_elem_of_singleton in Hd'. }
  destruct (limit_head (default 50 limit) new tl) as [rest Hrest].
  eexists _, (delete "_id" <$> rest). split; [apply get_orders_eq|].
  simpl. rewrite Htl, Hrest, fmap_cons.
  unfold new. by rewrite delete_insert_id by apply order_doc_no_id.
Qed.

Lemma get_orders_newest_first_witness :
  ∃ info,
    PLAN_DETAILS !! "creator" = Some info ∧
    Forall (created_before 500) sample_collection ∧
    satisfies_filters (Some false) None
      (order_doc (make_order_id (9 * 2 ^ 96)) "creator" info
         (Instant 500 321)) ∧
    ∃ r rest,
      get_orders (Some 1) (Some false) None
        (snd (generate_order (9 * 2 ^ 96) (Instant 500 321) 9%N {| plan := "creator" |}
                sample_collection)) = Ok r ∧
      orders r =
        order_doc (make_order_id (9 * 2 ^ 96)) "creator" info
          (Instant 500 321) :: rest.
Proof.
  pose (info := {| name := "Creator Pack";
                   price := "$24.99/mo";
                   description := "Up to 10 songs per month with extras";
                   delivery := "Priority";
                   features := ["Up to 10 songs/month"; "AI stems";
                                "Instrumentals"; "TikTok clips";
                                "Priority delivery"] |}).
  exists info.
  assert (Hinfo : PLAN_DETAILS !! "creator" = Some info) by reflexivity.
  assert (Hbefore : Forall (created_before 500) sample_collection).
  { repeat constructor; eexists; (split; [reflexivity|reflexivity]). }
  assert (Hsat : satisfies_filters (Some false) None
                   (order_doc (make_order_id (9 * 2 ^ 96)) "creator" info
                      (Instant 500 321)))
    by (split; [reflexivity|exact I]).
  split; [exact Hinfo|]. split; [exact Hbefore|]. split; [exact Hsat|].
  exact (get_orders_newest_first (9 * 2 ^ 96) (Instant 500 321) 9%N {| plan := "creator" |}
           (Some 1) (Some false) None sample_collection info Hinfo Hbefore
           Hsat).
Defined.

(** ** The records of a run *)

Section WellFormed.

Implicit Types (c : Collection.t) (d : document).

Lemma new_order_well_formed catalog uuid4 plan_code info now oid :
  catalog !! plan_code = Some info →
  well_formed_order catalog
    (<["_id" := VOid oid]>
       (order_doc (make_order_id uuid4) plan_code info now)).
Proof.
  intros Hinfo. unfold well_formed_order, order_doc. split_and!.
  - exists (make_order_id uuid4).
    split; [by simplify_map_eq|apply make_order_id_matches].
  - exists plan_code, info. split_and!; by simplify_map_eq.
  - exists (millis now). by simplify_map_eq.
  - by simplify_map_eq.
  - by simplify_map_eq.
  - exists oid. by simplify_map_eq.
  - left. split; by simplify_map_eq.
Qed.

Lemma fulfilled_at_well_formed catalog t d :
  well_formed_order catalog d → well_formed_order catalog (fulfilled_at t d).
Proof.
  intros (Hid & Hplan & Hts & Hst & Hwa & Hoid & _).
  unfold well_formed_order.
  rewrite !fulfilled_at_lookup_ne by done.
  split_and!; try done.
  right. rewrite fulfilled_at_fulfilled, fulfilled_at_fulfilledAt. eauto.
Qed.

Lemma handle_with_well_formed catalog r c :
  Forall (well_formed_order catalog) c →
  Forall (well_formed_order catalog) (handle_with catalog r c).
Proof.
  intros Hc. destruct r; simpl; try done.
  - rewrite generate_order_with_collection.
    destruct (catalog !! plan order_request) as [info|] eqn:Hinfo; [|done].
    apply Forall_app. split; [done|].
    apply Forall_singleton. by apply new_order_well_formed.
  - rewrite fulfill_order_collection.
    destruct (list_find _ c) as [[i d]|] eqn:Hf; [|done].
    apply list_find_Some in Hf as (Hi & _ & _).
    apply Forall_insert; [done|].
    apply fulfilled_at_well_formed. by eapply Forall_lookup_1 in Hc.
Qed.

Lemma well_formed_uses_known_plan d :
  well_formed_order PLAN_DETAILS d → uses_known_plan d.
Proof.
  intros (_ & (p & info & Hinfo & Hp & _) & _).
  assert (is_Some (PLAN_DETAILS !! p)) as Hkey by by eexists.
  apply PLAN_DETAILS_keys in Hkey.
  unfold uses_known_plan, uses_plan.
  destruct Hkey as [-> | [-> | ->]]; auto.
Qed.

End WellFormed.

(** X14. Every run of requests keeps the records well formed: when each
    record of the collection has an identifier of the form
    SS-[0-9A-F]{8}, a plan of the catalog with the attributes the catalog
    gives it, a creation time, the status and contact constants, an [_id],
    and either [fulfilled] false without [fulfilledAt] or [fulfilled] true
    with a time of fulfilment, so has each record after the run; the
    empty collection is such a start. *)
Theorem run_with_well_formed catalog rs (c : Collection.t) :
  Forall (well_formed_order catalog) c →
  Forall (well_formed_order catalog) (run_with catalog rs c).
Proof.
  unfold run_with. revert c.
  induction rs as [|r rs IH]; intros c Hc; simpl; [done|].
  by apply IH, handle_with_well_formed.
Qed.

Lemma run_with_well_formed_witness :
  Forall (well_formed_order PLAN_DETAILS) [] ∧
  Forall (well_formed_order PLAN_DETAILS) sample_collection.
Proof.
  assert (H : Forall (well_formed_order PLAN_DETAILS) []) by constructor.
  split; [exact H|].
  exact (run_with_well_formed PLAN_DETAILS sample_requests [] H).
Defined.

(** X15. In a collection built by the service from the empty one, under
    the catalog of the source, the three plan counts of the statistics add
    up to [totalOrders], and [pendingOrders] is the number of records with
    [fulfilled] false. *)
Theorem get_stats_of_run rs :
  ∃ s, get_stats (run_with PLAN_DETAILS rs []) = Ok s ∧
    snap (planBreakdown s) + snappack (planBreakdown s)
      + creator (planBreakdown s) = totalOrders s ∧
    pendingOrders s =
      Collection.count_documents {["fulfilled" := VBool false]}
        (run_with PLAN_DETAILS rs []).
Proof.
  assert (Hwf : Forall (well_formed_order PLAN_DETAILS)
                  (run_with PLAN_DETAILS rs [])).
  { unfold run_with. generalize (@nil document) (Forall_nil_2 (well_formed_order PLAN_DETAILS)).
    induction rs as [|r rs IH]; intros c Hc; simpl; [done|].
    by apply IH, handle_with_well_formed. }
  set (c := run_with PLAN_DETAILS rs []) in *.
  eexists. split; [reflexivity|]. simpl.
  rewrite count_documents_all, !count_documents_plan. split.
  - assert (Forall (λ d, uses_plan "snap" d ∨ uses_plan "snappack" d
                         ∨ uses_plan "creator" d) c) as Hall.
    { eapply Forall_impl; [exact Hwf|]. apply well_formed_uses_known_plan. }
    apply (length_filter3_all (uses_plan "snap") (uses_plan "snappack")
      (uses_plan "creator")
      ltac:(intros d; by apply uses_plan_disjoint)
      ltac:(intros d; by apply uses_plan_disjoint)
      ltac:(intros d; by apply uses_plan_disjoint)) in Hall. lia.
  - unfold Collection.count_documents. clear -Hwf.
    induction Hwf as [|d c Hd _ IH]; [done|].
    rewrite !filter_cons.
    destruct Hd as (_ & _ & _ & _ & _ & _ & [[Hf _]|[Hf _]]).
    + rewrite (decide_False (P := Collection.matches {["fulfilled" := VBool true]} d))
        by (rewrite matches_singleton; congruence).
      rewrite (decide_True (P := Collection.matches {["fulfilled" := VBool false]} d))
        by by rewrite matches_singleton.
      simpl length. lia.
    + rewrite (decide_True (P := Collection.matches {["fulfilled" := VBool true]} d))
        by by rewrite matches_singleton.
      rewrite (decide_False (P := Collection.matches {["fulfilled" := VBool false]} d))
        by (rewrite matches_singleton; congruence).
      simpl length. lia.
Qed.

(** X16. The collection after a run holds one record more for each
    [generate_order] request of the run that names a plan of the catalog,
    and no other request changes the number of records: [totalOrders] is
    the number of records before the run plus the number of those
    requests. *)
Theorem total_orders_of_run catalog rs (c : Collection.t) :
  ∃ s, get_stats (run_with catalog rs c) = Ok s ∧
    totalOrders s =
      Z.of_nat (length c)
      + Z.of_nat (length (filter (λ r, places_order catalog r) rs)).
Proof.
  eexists. split; [reflexivity|]. simpl. rewrite count_documents_all.
  unfold run_with. revert c.
  induction rs as [|r rs IH]; intros c; [cbn; lia|].
  cbn [foldl]. rewrite IH, filter_cons.
  assert (length (handle_with catalog r c) =
          (length c + (if places_order catalog r then 1 else 0))%nat) as ->.
  { destruct r; simpl; try lia.
    - rewrite generate_order_with_collection.
      destruct (catalog !! plan order_request) as [info|] eqn:Hinfo.
      + rewrite bool_decide_true by by eexists.
        rewrite List.length_app. simpl. lia.
      + rewrite bool_decide_false by by intros [??]. lia.
    - rewrite fulfill_order_collection.
      destruct (list_find _ c) as [[i d]|]; [rewrite length_insert|]; lia. }
  destruct (places_order catalog r) eqn:Hr.
  - rewrite decide_True by done. simpl. lia.
  - rewrite decide_False by (intros H; exact H). lia.
Qed.
